(** * ponzu, management/editor/elements.go

    A shallow embedding of the form-widget renderers of package [editor]
    and the properties of their field-name and field-value resolution.

    Conventions of the embedding.
    - A Go [string] and a Go [[]byte] are both a [string] of Rocq: a
      sequence of 8-bit characters.
    - A Go [map[string]string] is a reference that is either [nil] or
      points to a finite map: [option (gmap string string)].  Reading a
      nil map yields the zero string, storing into it panics.  A call that
      stores into the caller's map returns the map as it is afterwards.
    - [for k, v := range m] visits the entries of [m] in an order the Go
      language leaves unspecified.  The order is supplied by an oracle
      [rng : nat -> gmap string string -> list (string * string)]; its first
      argument is the number of [range] statements executed so far in the
      call, so that two loops over equal maps may still differ.  An oracle
      is an admissible Go behaviour when every answer is a permutation of
      the entries of the map ([rangeOK]).
    - [p interface{}] is a non-nil pointer to a struct without embedded
      fields; the struct is the list of its fields in declaration order,
      each with the data package [reflect] reports for it.
    - The attribute map and the option map of a call are two maps; the
      call that is given one map as both is [SelectShared], [CheckboxShared].
    - A panic is a value [Panic why] of the result type. *)

From Stdlib Require Import ZArith Ascii String DecimalString DecimalZ.
From stdpp Require Import base option list strings gmap fin_maps.

(** ** Results and the monad of a rendering call *)

Inductive panic : Type :=
| NoStructField (name : string)   (* "Couldn't get struct field for: ..." *)
| NoJsonTag (name : string)       (* "Couldn't get json struct tag for: ..." *)
| ReflectKind (method : string)   (* reflect: call of Value.method on a wrong kind *)
| ReflectUnexported               (* Value.Interface on an unexported field *)
| TypeAssertion                   (* x.([]string) on another dynamic type *)
| SliceConversion                 (* Len, Slice, Interface or x.([]string), by the type *)
| NilMapAssign.                   (* assignment to entry in nil map *)

Inductive result (A : Type) : Type :=
| Ok (a : A)
| Panic (why : panic).
Arguments Ok {A} a.
Arguments Panic {A} why.

Definition isOk {A} (r : result A) : bool :=
  match r with Ok _ => true | Panic _ => false end.

Definition isPanic {A} (r : result A) : bool := negb (isOk r).

(** A computation threads the count of executed [range] statements. *)
Definition M (A : Type) : Type := nat -> result (A * nat).

Definition ret {A} (a : A) : M A := fun n => Ok (a, n).

Definition bind {A B} (c : M A) (k : A -> M B) : M B :=
  fun n => match c n with
           | Ok (a, n') => k a n'
           | Panic w => Panic w
           end.

Definition lift {A} (r : result A) : M A :=
  fun n => match r with Ok a => Ok (a, n) | Panic w => Panic w end.

Notation "'do' x <- c ; k" := (bind c (fun x => k))
  (at level 10, x pattern, c at level 100, k at level 200).

Definition rbind {A B} (r : result A) (k : A -> result B) : result B :=
  match r with Ok a => k a | Panic w => Panic w end.

Notation "'try' x <- r ; k" := (rbind r (fun x => k))
  (at level 10, x pattern, r at level 100, k at level 200).

(** ** Go maps *)

Definition GoMap : Type := option (gmap string string).

Definition entries (m : GoMap) : gmap string string :=
  match m with Some g => g | None => ∅ end.

(** [m[k]] *)
Definition mapIndex (m : GoMap) (k : string) : string :=
  default "" (entries m !! k).

(** [m[k] = v] *)
Definition mapAssign (m : GoMap) (k v : string) : result GoMap :=
  match m with
  | Some g => Ok (Some (<[k := v]> g))
  | None => Panic NilMapAssign
  end.

Definition rangeOracle : Type := nat -> gmap string string -> list (string * string).

Definition rangeOK (rng : rangeOracle) : Prop :=
  forall n g, rng n g ≡ₚ map_to_list g.

(** [for k, v := range m]: the entries in the order of this execution. *)
Definition range (rng : rangeOracle) (m : GoMap) : M (list (string * string)) :=
  fun n => Ok (rng n (entries m), S n).

(** ** Package reflect, as far as the editor uses it *)

Module reflect.

(** What a [Value] holds, by the kinds the editor can tell apart. *)
Inductive Data : Type :=
| Invalid                           (* the zero Value *)
| OfString (s : string)             (* Kind String *)
| OfInt (ty : string) (z : Z)       (* Kinds Int, Int8 .. Int64 of the type named ty *)
| OfUint (ty : string) (z : Z)      (* Kinds Uint, Uint8 .. Uint64, Uintptr *)
| OfStrings (l : list string)       (* a value of type []string *)
| OfStringArray (ty : string) (l : list string)
                                    (* an array, of the type named ty, of elements of type string *)
| OfOther (ty : string).            (* a value of any other type, named ty *)

Record Value : Type := mkValue {
  holds : Data;
  flagRO : bool                     (* reached through an unexported field *)
}.

Record StructField : Type := mkField {
  Name : string;
  PkgPath : string;                 (* empty for an exported field *)
  Tag : list (string * string);     (* the pairs key:value of the struct tag *)
  Val : Data                        (* what the field holds now *)
}.

Definition Struct : Type := list StructField.

(** [StructTag.Lookup]: the value of the first pair with that key. *)
Fixpoint Lookup (tag : list (string * string)) (key : string) : option string :=
  match tag with
  | [] => None
  | (k, v) :: rest => if String.eqb k key then Some v else Lookup rest key
  end.

(** [Type.FieldByName] on a struct without embedded fields: the empty name
    finds nothing, another name finds the first field that carries it. *)
Definition FieldByName (p : Struct) (name : string) : option StructField :=
  if String.eqb name "" then None
  else List.find (fun f => String.eqb (Name f) name) p.

(** [Value.FieldByName]: the zero Value when there is no such field. *)
Definition ValueFieldByName (p : Struct) (name : string) : Value :=
  match FieldByName p name with
  | Some f => mkValue (Val f) (negb (String.eqb (PkgPath f) ""))
  | None => mkValue Invalid false
  end.

(** [Value.String]: never panics. *)
Definition ValueString (v : Value) : string :=
  match holds v with
  | Invalid => "<invalid Value>"
  | OfString s => s
  | OfInt ty _ => "<" +:+ ty +:+ " Value>"
  | OfUint ty _ => "<" +:+ ty +:+ " Value>"
  | OfStrings _ => "<[]string Value>"
  | OfStringArray ty _ => "<" +:+ ty +:+ " Value>"
  | OfOther ty => "<" +:+ ty +:+ " Value>"
  end.

(** [Value.Int]: panics unless the kind is a signed integer kind. *)
Definition ValueInt (v : Value) : result Z :=
  match holds v with
  | OfInt _ z => Ok z
  | _ => Panic (ReflectKind "Int")
  end.

(** [v.Slice(0, v.Len()).Interface().([]string)], for a field reached
    through a pointer to the struct (so that an array is addressable).
    [Len] and [Slice] panic on a kind without a length or a slice,
    [Interface] panics on a read-only value, and the type assertion panics
    on any dynamic type but []string.  [Slice] of a value of type []string
    is of that type, and [Slice] of an array of strings is a []string
    too: the chain returns for an exported field of type []string or of
    an array type with elements of type string, and for no other.  For a
    value of a type not told apart here the step that panics depends on
    the type, and is not recorded. *)
Definition asStrings (v : Value) : result (list string) :=
  match holds v with
  | OfStrings l => if flagRO v then Panic ReflectUnexported else Ok l
  | OfStringArray _ l => if flagRO v then Panic ReflectUnexported else Ok l
  | Invalid => Panic (ReflectKind "Len")
  | OfInt _ _ => Panic (ReflectKind "Len")
  | OfUint _ _ => Panic (ReflectKind "Len")
  | OfString _ => if flagRO v then Panic ReflectUnexported else Panic TypeAssertion
  | OfOther _ => Panic SliceConversion
  end.

End reflect.

(** ** Library functions on strings *)

(** [fmt.Sprintf] of the verb [%d]. *)
Definition decimal (z : Z) : string := NilEmpty.string_of_int (Z.to_int z).

(** The double-quote character and a string between double quotes. *)
Definition dquote : ascii := ascii_of_nat 34.
Definition dq : string := String dquote "".
Definition quoted (s : string) : string := dq +:+ s +:+ dq.

(** [html.EscapeString] *)
Definition escapeChar (c : ascii) : string :=
  if Ascii.eqb c "&"%char then "&amp;"
  else if Ascii.eqb c "'"%char then "&#39;"
  else if Ascii.eqb c "<"%char then "&lt;"
  else if Ascii.eqb c ">"%char then "&gt;"
  else if Ascii.eqb c dquote then "&#34;"
  else String c "".

Fixpoint EscapeString (s : string) : string :=
  match s with
  | "" => ""
  | String c rest => escapeChar c +:+ EscapeString rest
  end.

(** [strings.Split] with a separator of one character. *)
Fixpoint Split (s : string) (sep : ascii) : list string :=
  match s with
  | "" => [""]
  | String c rest =>
      if Ascii.eqb c sep then "" :: Split rest sep
      else match Split rest sep with
           | h :: t => String c h :: t
           | [] => [String c ""]
           end
  end.

(** [strings.Join] *)
Fixpoint Join (elems : list string) (sep : string) : string :=
  match elems with
  | [] => ""
  | [x] => x
  | x :: rest => x +:+ sep +:+ Join rest sep
  end.

(** ** Package editor: elements and their names and values *)

Record element : Type := mkElement {
  TagName : string;
  Attrs : GoMap;
  Name : string;
  label : string;
  data : string;
  viewBuf : string
}.

Definition tagNameFromStructField (name : string) (post : reflect.Struct) : result string :=
  if String.eqb name "" then Ok name
  else match reflect.FieldByName post name with
       | None => Panic (NoStructField name)
       | Some field =>
           match reflect.Lookup (reflect.Tag field) "json" with
           | None => Panic (NoJsonTag name)
           | Some tag => Ok tag
           end
       end.

Definition tagNameFromStructFieldMulti (name : string) (i : Z) (post : reflect.Struct)
  : result string :=
  try tag <- tagNameFromStructField name post;
  Ok (tag +:+ "." +:+ decimal i).

Definition valueFromStructField (name : string) (post : reflect.Struct) : reflect.Value :=
  reflect.ValueFieldByName post name.

Definition newElement (tagName label fieldName : string) (p : reflect.Struct) (attrs : GoMap)
  : result element :=
  try name <- tagNameFromStructField fieldName p;
  Ok {| TagName := tagName;
        Attrs := attrs;
        Name := name;
        label := label;
        data := reflect.ValueString (valueFromStructField fieldName p);
        viewBuf := "" |}.

(** ** Package editor: writing an element *)

(** The body of [for attr, value := range e.Attrs], once per entry. *)
Definition writeAttr (buf : string) (kv : string * string) : string :=
  buf +:+ kv.1 +:+ "=" +:+ dq +:+ kv.2 +:+ dq +:+ " ".

Definition writeAttrs (buf : string) (kvs : list (string * string)) : string :=
  foldl writeAttr buf kvs.

(** [strings.Join(strings.Split(label, " "), "-")] *)
Definition dashed (label : string) : string := Join (Split label " ") "-".

Definition domElementSelfClose (rng : rangeOracle) (e : element) : M string :=
  let buf := viewBuf e +:+ "<div class=" +:+ dq +:+ "input-field col s12" +:+ dq +:+ ">" in
  let buf :=
    if String.eqb (label e) "" then buf
    else buf +:+ "<label class=" +:+ dq +:+ "active" +:+ dq +:+ " for=" +:+ dq
             +:+ dashed (label e) +:+ dq +:+ ">" +:+ label e +:+ "</label>" in
  let buf := buf +:+ "<" +:+ TagName e +:+ " value=" +:+ dq in
  let buf := buf +:+ EscapeString (data e) +:+ dq +:+ " " in
  do kvs <- range rng (Attrs e);
  let buf := writeAttrs buf kvs in
  let buf := buf +:+ " name=" +:+ dq +:+ Name e +:+ dq in
  let buf := buf +:+ " />" in
  let buf := buf +:+ "</div>" in
  ret buf.

Definition domElementCheckbox (rng : rangeOracle) (e : element) : M string :=
  let buf := viewBuf e +:+ "<p class=" +:+ dq +:+ "col s6" +:+ dq +:+ ">" in
  let buf := buf +:+ "<" +:+ TagName e +:+ " " in
  do kvs <- range rng (Attrs e);
  let buf := writeAttrs buf kvs in
  let buf := buf +:+ " name=" +:+ dq +:+ Name e +:+ dq in
  let buf := buf +:+ " /> " in
  let buf :=
    if String.eqb (label e) "" then buf
    else buf +:+ "<label for=" +:+ dq +:+ dashed (label e) +:+ dq +:+ ">"
             +:+ label e +:+ "</label>" in
  let buf := buf +:+ "</p>" in
  ret buf.

Definition domElement (rng : rangeOracle) (e : element) : M string :=
  let buf := viewBuf e +:+ "<div class=" +:+ dq +:+ "input-field col s12" +:+ dq +:+ ">" in
  let buf :=
    if String.eqb (label e) "" then buf
    else buf +:+ "<label class=" +:+ dq +:+ "active" +:+ dq +:+ " for=" +:+ dq
             +:+ dashed (label e) +:+ dq +:+ ">" +:+ label e +:+ "</label>" in
  let buf := buf +:+ "<" +:+ TagName e +:+ " " in
  do kvs <- range rng (Attrs e);
  let buf := writeAttrs buf kvs in
  let buf := buf +:+ " name=" +:+ dq +:+ Name e +:+ dq in
  let buf := buf +:+ " >" in
  let buf := buf +:+ EscapeString (data e) in
  let buf := buf +:+ "</" +:+ TagName e +:+ ">" in
  let buf := buf +:+ "</div>" in
  ret buf.

(** [for _, child := range children { e.viewBuf.Write(render(child)) }] *)
Fixpoint writeChildren (render : element -> M string) (buf : string)
  (children : list element) : M string :=
  match children with
  | [] => ret buf
  | child :: rest =>
      do b <- render child;
      writeChildren render (buf +:+ b) rest
  end.

Definition domElementWithChildrenSelect (rng : rangeOracle) (e : element)
  (children : list element) : M string :=
  let buf := viewBuf e +:+ "<div class=" +:+ dq +:+ "input-field col s6" +:+ dq +:+ ">" in
  let buf := buf +:+ "<" +:+ TagName e +:+ " " in
  do kvs <- range rng (Attrs e);
  let buf := writeAttrs buf kvs in
  let buf := buf +:+ " name=" +:+ dq +:+ Name e +:+ dq in
  let buf := buf +:+ " >" in
  do buf <- writeChildren (domElement rng) buf children;
  let buf := buf +:+ "</" +:+ TagName e +:+ ">" in
  let buf :=
    if String.eqb (label e) "" then buf
    else buf +:+ "<label class=" +:+ dq +:+ "active" +:+ dq +:+ ">" +:+ label e +:+ "</label>" in
  let buf := buf +:+ "</div>" in
  ret buf.

Definition domElementWithChildrenCheckbox (rng : rangeOracle) (e : element)
  (children : list element) : M string :=
  let buf := viewBuf e +:+ "<" +:+ TagName e +:+ " " in
  do kvs <- range rng (Attrs e);
  let buf := writeAttrs buf kvs in
  let buf := buf +:+ " >" in
  let buf :=
    if String.eqb (label e) "" then buf
    else buf +:+ "<label class=" +:+ dq +:+ "active" +:+ dq +:+ ">" +:+ label e +:+ "</label>" in
  do buf <- writeChildren (domElementCheckbox rng) buf children;
  let buf := buf +:+ "</" +:+ TagName e +:+ "><div class=" +:+ dq +:+ "clear padding" +:+ dq
                 +:+ ">&nbsp;</div>" in
  ret buf.

(** ** Package editor: the literal markup of File, Richtext and Tags *)

(** [File_tmpl] before and after the hidden input that stores the value. *)
Definition File_head (name label : string) : string :=
  "<div class=" +:+ dq +:+ "file-input " +:+ name +:+ " input-field col s12" +:+ dq +:+ ">
			<label class=" +:+ dq +:+ "active" +:+ dq +:+ ">" +:+ label +:+ "</label>
			<div class=" +:+ dq +:+ "file-field input-field" +:+ dq +:+ ">
				<div class=" +:+ dq +:+ "btn" +:+ dq +:+ ">
					<span>Upload</span>
					<input class=" +:+ dq +:+ "upload" +:+ dq +:+ " type=" +:+ dq +:+ "file" +:+ dq +:+ ">
				</div>
				<div class=" +:+ dq +:+ "file-path-wrapper" +:+ dq +:+ ">
					<input class=" +:+ dq +:+ "file-path validate" +:+ dq +:+ " placeholder=" +:+ dq +:+ label +:+ dq +:+ " type=" +:+ dq +:+ "text" +:+ dq +:+ ">
				</div>
			</div>
			<div class=" +:+ dq +:+ "preview" +:+ dq +:+ "><div class=" +:+ dq +:+ "img-clip" +:+ dq +:+ "></div></div>			
			".

Definition File_foot : string :=
  "
		</div>".

(** The literal [tmpl] of [File]: the head, the hidden input, the foot. *)
Definition File_tmpl (name label value : string) : string :=
  File_head name label
    +:+ "<input class=" +:+ dq +:+ "store " +:+ name +:+ dq +:+ " type=" +:+ dq +:+ "hidden"
    +:+ dq +:+ " name=" +:+ dq +:+ name +:+ dq +:+ " value=" +:+ dq +:+ value +:+ dq +:+ " />"
    +:+ File_foot.

Definition File_script (name : string) : string :=
  "<script>
			$(function() {
				var $file = $('.file-input." +:+ name +:+ "'),
					upload = $file.find('input.upload'),
					store = $file.find('input.store'),
					preview = $file.find('.preview'),
					clip = preview.find('.img-clip'),
					reset = document.createElement('div'),
					img = document.createElement('img'),
					uploadSrc = store.val();
					preview.hide();
				
				// when " +:+ name +:+ " input changes (file is selected), remove
				// the 'name' and 'value' attrs from the hidden store input.
				// add the 'name' attr to " +:+ name +:+ " input
				upload.on('change', function(e) {
					resetImage();
				});

				if (uploadSrc.length > 0) {
					$(img).attr('src', store.val());
					clip.append(img);
					preview.show();

					$(reset).addClass('reset " +:+ name +:+ " btn waves-effect waves-light grey');
					$(reset).html('<i class=" +:+ dq +:+ "material-icons tiny" +:+ dq +:+ ">clear<i>');
					$(reset).on('click', function(e) {
						e.preventDefault();
						preview.animate({" +:+ dq +:+ "opacity" +:+ dq +:+ ": 0.1}, 200, function() {
							preview.slideUp(250, function() {
								resetImage();
							});
						})
						
					});
					clip.append(reset);
				}

				function resetImage() {
					store.val('');
					store.attr('name', '');
					upload.attr('name', '" +:+ name +:+ "');
					clip.empty();
				}
			});	
		</script>".

Definition Richtext_iso (label : string) : string :=
  "<div class=" +:+ dq +:+ "iso-texteditor input-field col s12" +:+ dq +:+ "><label>" +:+ label +:+ "</label>".

Definition Richtext_input (name fieldName val : string) : string :=
  "<input type=" +:+ dq +:+ "hidden" +:+ dq +:+ " name=" +:+ dq +:+ name +:+ dq +:+ " class=" +:+ dq +:+ "richtext-value " +:+ fieldName +:+ dq +:+ " value=" +:+ dq +:+ EscapeString val +:+ dq +:+ "/>".

Definition Richtext_script (fieldName placeholder : string) : string :=
  "
	<script>
		$(function() { 
			var _editor = $('.richtext." +:+ fieldName +:+ "');
			var hidden = $('.richtext-value." +:+ fieldName +:+ "');

			_editor.materialnote({
				height: 250,
				placeholder: '" +:+ placeholder +:+ "',
				toolbar: [
					['style', ['bold', 'italic', 'underline', 'clear']],
					['font', ['strikethrough', 'superscript', 'subscript']],
					['fontsize', ['fontsize']],
					['color', ['color']],
					['insert', ['link', 'picture', 'video', 'hr']],					
					['para', ['ul', 'ol', 'paragraph']],
					['height', ['height']],
					['misc', ['codeview']]
				],
				// intercept file insertion, upload and insert img with new src
				onImageUpload: function(files) {
					var data = new FormData();
					data.append(" +:+ dq +:+ "file" +:+ dq +:+ ", files[0]);
					$.ajax({
						data: data,
						type: 'POST',
						url: '/admin/edit/upload',
						cache: false,
						contentType: false,
						processData: false,
						success: function(resp) {
							var img = document.createElement('img');
							img.setAttribute('src', resp.data[0].url);
							_editor.materialnote('insertNode', img);
						},
						error: function(xhr, status, err) {
							console.log(status, err);
						}
					})

				}
			});

			// inject content into editor
			if (hidden.val() !== " +:+ dq +:+ dq +:+ ") {
				_editor.code(hidden.val());
			}

			// update hidden input with encoded value on different events
			_editor.on('materialnote.change', function(e, content, $editable) {
				hidden.val(replaceBadChars(content));			
			});

			_editor.on('materialnote.paste', function(e) {
				hidden.val(replaceBadChars(_editor.code()));			
			});

			// bit of a hack to stop the editor buttons from causing a refresh when clicked 
			$('.note-toolbar').find('button, i, a').on('click', function(e) { e.preventDefault(); });
		});
	</script>".

Definition Tags_html (name label : string) : string :=
  "
	<div class=" +:+ dq +:+ "input-field col s12 tags " +:+ name +:+ dq +:+ ">
		<label class=" +:+ dq +:+ "active" +:+ dq +:+ ">" +:+ label +:+ "</label>
		<div class=" +:+ dq +:+ "chips " +:+ name +:+ dq +:+ "></div>
	".

Definition Tags_input (tag tagName : string) : string :=
  "<input type=" +:+ dq +:+ "hidden" +:+ dq +:+ " class=" +:+ dq +:+ "tag-" +:+ tag +:+ dq +:+ " name=" +:+ tagName +:+ " value=" +:+ dq +:+ tag +:+ dq +:+ "/>".

Definition Tags_initial (tag : string) : string :=
  "{tag: " +:+ tag +:+ "}".

Definition Tags_script (name : string) (initial : list string) : string :=
  "
	<script>
		$(function() {
			var tags = $('.tags." +:+ name +:+ "');
			$('.chips." +:+ name +:+ "').material_chip({
				data: [" +:+ Join initial "," +:+ "],
				placeholder: 'Type and press " +:+ dq +:+ "Enter" +:+ dq +:+ " to add " +:+ name +:+ "'
			});		

			// handle events specific to tags
			var chips = tags.find('.chips');
			
			chips.on('chip.add', function(e, chip) {
				var input = $('<input>');
				input.attr({
					class: 'tag-'+chip.tag,
					name: '" +:+ name +:+ ".'+tags.find('input[type=hidden]').length-1,
					value: chip.tag,
					type: 'hidden'
				});
				
				tags.append(input);
			});

			chips.on('chip.delete', function(e, chip) {
				var sel = '.tag-'+chip.tag;
				console.log(sel);
				console.log(chips.parent().find(sel));				
				chips.parent().find(sel).remove();
			});
		});
	</script>
	".

(** ** Package editor: the rendering calls

    Each call returns the bytes it produced together with the caller's
    attribute map as the call leaves it. *)

Definition Input (rng : rangeOracle) (fieldName : string) (p : reflect.Struct)
  (attrs : GoMap) : M (string * GoMap) :=
  do e <- lift (newElement "input" (mapIndex attrs "label") fieldName p attrs);
  do out <- domElementSelfClose rng e;
  ret (out, attrs).

Definition Textarea (rng : rangeOracle) (fieldName : string) (p : reflect.Struct)
  (attrs : GoMap) : M (string * GoMap) :=
  do e <- lift (newElement "textarea" (mapIndex attrs "label") fieldName p attrs);
  do out <- domElement rng e;
  ret (out, attrs).

Definition Timestamp (rng : rangeOracle) (fieldName : string) (p : reflect.Struct)
  (attrs : GoMap) : M (string * GoMap) :=
  let val := valueFromStructField fieldName p in
  do z <- lift (reflect.ValueInt val);
  let data := if Z.eqb z 0 then "" else decimal z in
  do name <- lift (tagNameFromStructField fieldName p);
  let e := {| TagName := "input";
              Attrs := attrs;
              Name := name;
              label := mapIndex attrs "label";
              data := data;
              viewBuf := "" |} in
  do out <- domElementSelfClose rng e;
  ret (out, attrs).

Definition File (fieldName : string) (p : reflect.Struct) (attrs : GoMap)
  : M (string * GoMap) :=
  do name <- lift (tagNameFromStructField fieldName p);
  let tmpl :=
    File_tmpl name (mapIndex attrs "label")
      (reflect.ValueString (valueFromStructField fieldName p)) in
  let script := File_script name in
  ret (tmpl +:+ script, attrs).

Definition Richtext (rng : rangeOracle) (fieldName : string) (p : reflect.Struct)
  (attrs : GoMap) : M (string * GoMap) :=
  let iso := Richtext_iso (mapIndex attrs "label") in
  let isoClose := "</div>" in
  do attrs <- lift (mapAssign attrs "class" ("richtext " +:+ fieldName));
  do attrs <- lift (mapAssign attrs "id" ("richtext-" +:+ fieldName));
  let div := {| TagName := "div";
                Attrs := attrs;
                Name := "";
                label := "";
                data := "";
                viewBuf := "" |} in
  let val := reflect.ValueString (valueFromStructField fieldName p) in
  do name <- lift (tagNameFromStructField fieldName p);
  let input := Richtext_input name fieldName val in
  do d <- domElement rng div;
  let iso := iso +:+ d in
  let iso := iso +:+ input in
  let iso := iso +:+ isoClose in
  let script := Richtext_script fieldName (mapIndex attrs "placeholder") in
  ret (iso +:+ script, attrs).

(** The body of [for k, v := range options] in [Select]. *)
Definition selectOption (fieldVal : string) (opts : list element) (kv : string * string)
  : list element :=
  let optAttrs : gmap string string := {[ "value" := kv.1 ]} in
  let optAttrs :=
    if String.eqb kv.1 fieldVal then <[ "selected" := "true" ]> optAttrs else optAttrs in
  let opt := {| TagName := "option";
                Attrs := Some optAttrs;
                Name := "";
                label := "";
                data := kv.2;
                viewBuf := "" |} in
  opts ++ [opt].

(** The call to action of the select element. *)
Definition cta : element :=
  {| TagName := "option";
     Attrs := Some (<[ "disabled" := "true" ]> {[ "selected" := "true" ]});
     Name := "";
     label := "";
     data := "Select an option...";
     viewBuf := "" |}.

(** The selection reset (stores the empty string). *)
Definition reset : element :=
  {| TagName := "option";
     Attrs := Some {[ "value" := "" ]};
     Name := "";
     label := "";
     data := "None";
     viewBuf := "" |}.

Definition Select (rng : rangeOracle) (fieldName : string) (p : reflect.Struct)
  (attrs options : GoMap) : M (string * GoMap) :=
  let fieldVal := reflect.ValueString (valueFromStructField fieldName p) in
  do attrs <- lift (mapAssign attrs "class" "browser-default");
  do sel <- lift (newElement "select" (mapIndex attrs "label") fieldName p attrs);
  let opts := [cta; reset] in
  do kvs <- range rng options;
  let opts := foldl (selectOption fieldVal) opts kvs in
  do out <- domElementWithChildrenSelect rng sel opts;
  ret (out, attrs).

(** [for _, x := range checked { if k == x { inputAttrs["checked"] = "checked" } }] *)
Definition markChecked (k : string) (inputAttrs : gmap string string) (x : string)
  : gmap string string :=
  if String.eqb k x then <[ "checked" := "checked" ]> inputAttrs else inputAttrs.

(** The loop [for k, v := range options] of [Checkbox], with its counter. *)
Fixpoint checkboxOptions (fieldName : string) (p : reflect.Struct) (checked : list string)
  (kvs : list (string * string)) (i : Z) (opts : list element) : result (list element) :=
  match kvs with
  | [] => Ok opts
  | (k, v) :: rest =>
      let inputAttrs : gmap string string :=
        <[ "type" := "checkbox" ]> (<[ "value" := k ]> {[ "id" := dashed v ]}) in
      let inputAttrs := foldl (markChecked k) inputAttrs checked in
      try name <- tagNameFromStructFieldMulti fieldName i p;
      let input := {| TagName := "input";
                      Attrs := Some inputAttrs;
                      Name := name;
                      label := v;
                      data := "";
                      viewBuf := "" |} in
      checkboxOptions fieldName p checked rest (i + 1)%Z (opts ++ [input])
  end.

Definition Checkbox (rng : rangeOracle) (fieldName : string) (p : reflect.Struct)
  (attrs options : GoMap) : M (string * GoMap) :=
  do attrs <- lift (mapAssign attrs "class" "input-field col s12");
  do div <- lift (newElement "div" (mapIndex attrs "label") "" p attrs);
  let checkedVals := valueFromStructField fieldName p in
  do checked <- lift (reflect.asStrings checkedVals);
  do kvs <- range rng options;
  do opts <- lift (checkboxOptions fieldName p checked kvs 0 []);
  do out <- domElementWithChildrenCheckbox rng div opts;
  ret (out, attrs).

(** The loop [for _, tag := range tags] of [Tags], with its counter. *)
Fixpoint tagsInputs (fieldName : string) (p : reflect.Struct) (tags : list string)
  (i : Z) (html : string) (initial : list string) : result (string * list string) :=
  match tags with
  | [] => Ok (html, initial)
  | tag :: rest =>
      try tagName <- tagNameFromStructFieldMulti fieldName i p;
      let html := html +:+ Tags_input tag tagName in
      let initial := initial ++ [Tags_initial tag] in
      tagsInputs fieldName p rest (i + 1)%Z html initial
  end.

Definition Tags (fieldName : string) (p : reflect.Struct) (attrs : GoMap)
  : M (string * GoMap) :=
  do name <- lift (tagNameFromStructField fieldName p);
  let values := valueFromStructField fieldName p in
  do tags <- lift (reflect.asStrings values);
  let html := Tags_html name (mapIndex attrs "label") in
  do looped <- lift (tagsInputs fieldName p tags 0 html []);
  let html := looped.1 in
  let initial := looped.2 in
  let script := Tags_script name initial in
  let html := html +:+ "</div>" in
  ret (html +:+ script, attrs).

(** The eight rendering calls behind one signature. *)
Inductive widget : Type :=
| WInput | WTextarea | WTimestamp | WFile | WRichtext | WSelect | WCheckbox | WTags.

Definition render (w : widget) (rng : rangeOracle) (fieldName : string)
  (p : reflect.Struct) (attrs options : GoMap) : M (string * GoMap) :=
  match w with
  | WInput => Input rng fieldName p attrs
  | WTextarea => Textarea rng fieldName p attrs
  | WTimestamp => Timestamp rng fieldName p attrs
  | WFile => File fieldName p attrs
  | WRichtext => Richtext rng fieldName p attrs
  | WSelect => Select rng fieldName p attrs options
  | WCheckbox => Checkbox rng fieldName p attrs options
  | WTags => Tags fieldName p attrs
  end.

(** [Select(fieldName, p, m, m)] and [Checkbox(fieldName, p, m, m)]: one
    map passed as the attributes and as the options.  The store into the
    attributes comes before the loop over the options, which therefore
    visits the map with the entry class in it. *)
Definition afterStore (m : GoMap) (k v : string) : GoMap :=
  match m with Some g => Some (<[ k := v ]> g) | None => None end.

Definition SelectShared (rng : rangeOracle) (fieldName : string) (p : reflect.Struct)
  (m : GoMap) : M (string * GoMap) :=
  Select rng fieldName p m (afterStore m "class" "browser-default").

Definition CheckboxShared (rng : rangeOracle) (fieldName : string) (p : reflect.Struct)
  (m : GoMap) : M (string * GoMap) :=
  Checkbox rng fieldName p m (afterStore m "class" "input-field col s12").

(** ** Vocabulary of the statements *)

(** The markup of an attribute list, as one string. *)
Definition attrMarkup (kv : string * string) : string :=
  kv.1 +:+ "=" +:+ quoted kv.2 +:+ " ".

Fixpoint attrsMarkup (kvs : list (string * string)) : string :=
  match kvs with
  | [] => ""
  | kv :: rest => attrMarkup kv +:+ attrsMarkup rest
  end.

(** The label written by [domElementSelfClose] and [domElement]. *)
Definition activeLabelFor (l : string) : string :=
  if String.eqb l "" then ""
  else "<label class=" +:+ quoted "active" +:+ " for=" +:+ quoted (dashed l) +:+ ">"
         +:+ l +:+ "</label>".

(** The label written by the two [domElementWithChildren] functions. *)
Definition activeLabel (l : string) : string :=
  if String.eqb l "" then ""
  else "<label class=" +:+ quoted "active" +:+ ">" +:+ l +:+ "</label>".

(** The opening of the wrapper written by [domElementSelfClose] and [domElement]. *)
Definition inputField : string := "<div class=" +:+ quoted "input-field col s12" +:+ ">".

(** The attribute that names a form input. *)
Definition nameAttr (t : string) : string := " name=" +:+ quoted t.

(** The bytes of an [Input] or [Timestamp]: label [label], value attribute
    [value], attributes in the order [kvs], name [t]. *)
Definition inputBytes (label value : string) (kvs : list (string * string))
  (t : string) : string :=
  inputField +:+ activeLabelFor label
    +:+ "<input value=" +:+ quoted value +:+ " " +:+ attrsMarkup kvs
    +:+ nameAttr t +:+ " /></div>".

(** The bytes of a [Textarea] with content [content]. *)
Definition textareaBytes (label content : string) (kvs : list (string * string))
  (t : string) : string :=
  inputField +:+ activeLabelFor label
    +:+ "<textarea " +:+ attrsMarkup kvs +:+ nameAttr t +:+ " >" +:+ content
    +:+ "</textarea></div>".

(** The bytes of a [File] whose hidden store input has the value [value]. *)
Definition fileBytes (label value t : string) : string :=
  File_head t label
    +:+ "<input class=" +:+ quoted ("store " +:+ t) +:+ " type=" +:+ quoted "hidden"
    +:+ nameAttr t +:+ " value=" +:+ quoted value +:+ " />"
    +:+ File_foot +:+ File_script t.

(** The bytes of a [Richtext] whose hidden input has the value [value]. *)
Definition richtextBytes (label fieldName value : string) (kvs : list (string * string))
  (t placeholder : string) : string :=
  Richtext_iso label
    +:+ inputField +:+ "<div " +:+ attrsMarkup kvs +:+ nameAttr "" +:+ " ></div></div>"
    +:+ "<input type=" +:+ quoted "hidden" +:+ nameAttr t +:+ " class="
    +:+ quoted ("richtext-value " +:+ fieldName) +:+ " value=" +:+ quoted value +:+ "/>"
    +:+ "</div>" +:+ Richtext_script fieldName placeholder.

(** What [domElementSelfClose], [domElement] and [domElementCheckbox] write
    for an element whose attributes are visited in the order [kvs]. *)
Definition selfCloseMarkup (kvs : list (string * string)) (e : element) : string :=
  viewBuf e +:+ inputField +:+ activeLabelFor (label e)
    +:+ "<" +:+ TagName e +:+ " value=" +:+ quoted (EscapeString (data e)) +:+ " "
    +:+ attrsMarkup kvs +:+ " name=" +:+ quoted (Name e) +:+ " /></div>".

Definition elementMarkup (kvs : list (string * string)) (e : element) : string :=
  viewBuf e +:+ inputField +:+ activeLabelFor (label e)
    +:+ "<" +:+ TagName e +:+ " " +:+ attrsMarkup kvs
    +:+ " name=" +:+ quoted (Name e) +:+ " >" +:+ EscapeString (data e)
    +:+ "</" +:+ TagName e +:+ "></div>".

Definition checkboxMarkup (kvs : list (string * string)) (e : element) : string :=
  viewBuf e +:+ "<p class=" +:+ quoted "col s6" +:+ ">"
    +:+ "<" +:+ TagName e +:+ " " +:+ attrsMarkup kvs
    +:+ " name=" +:+ quoted (Name e) +:+ " /> "
    +:+ (if String.eqb (label e) "" then ""
         else "<label for=" +:+ quoted (dashed (label e)) +:+ ">" +:+ label e +:+ "</label>")
    +:+ "</p>".

(** The children in list order; the child at position [j] has its
    attributes visited by the [range] statement numbered [n + j]. *)
Fixpoint childrenMarkup (rng : rangeOracle)
  (markup : list (string * string) -> element -> string) (n : nat)
  (children : list element) : string :=
  match children with
  | [] => ""
  | child :: rest =>
      markup (rng n (entries (Attrs child))) child +:+ childrenMarkup rng markup (S n) rest
  end.

(** The option element [Select] builds for the entry [kv] of [options]. *)
Definition optionElement (fieldVal : string) (kv : string * string) : element :=
  {| TagName := "option";
     Attrs := Some (if String.eqb kv.1 fieldVal
                    then <[ "selected" := "true" ]> {[ "value" := kv.1 ]}
                    else {[ "value" := kv.1 ]});
     Name := "";
     label := "";
     data := kv.2;
     viewBuf := "" |}.

(** The input element [Checkbox] builds for the entry [kv] of [options]
    when its counter stands at [i], under the json tag [t]. *)
Definition checkboxInput (t : string) (checked : list string) (i : Z)
  (kv : string * string) : element :=
  {| TagName := "input";
     Attrs := Some (foldl (markChecked kv.1)
                      (<[ "type" := "checkbox" ]>
                         (<[ "value" := kv.1 ]> {[ "id" := dashed kv.2 ]})) checked);
     Name := t +:+ "." +:+ decimal i;
     label := kv.2;
     data := "";
     viewBuf := "" |}.

Fixpoint checkboxInputs (t : string) (checked : list string)
  (kvs : list (string * string)) (i : Z) : list element :=
  match kvs with
  | [] => []
  | kv :: rest => checkboxInput t checked i kv :: checkboxInputs t checked rest (i + 1)
  end.

(** The strings of a list, one after the other. *)
Definition joinAll (l : list string) : string := foldr String.append "" l.

(** The hidden inputs [Tags] writes for [tags], the first numbered [i]. *)
Fixpoint tagsMarkup (t : string) (tags : list string) (i : Z) : string :=
  match tags with
  | [] => ""
  | tag :: rest => Tags_input tag (t +:+ "." +:+ decimal i) +:+ tagsMarkup t rest (i + 1)
  end.

(** The struct has a field of that name and the field has a json tag. *)
Definition hasJsonTag (p : reflect.Struct) (name : string) : bool :=
  match reflect.FieldByName p name with
  | Some f =>
      match reflect.Lookup (reflect.Tag f) "json" with Some _ => true | None => false end
  | None => false
  end.

(** The named field exists and is of a signed integer kind. *)
Definition isIntField (p : reflect.Struct) (name : string) : bool :=
  match reflect.FieldByName p name with
  | Some f => match reflect.Val f with reflect.OfInt _ _ => true | _ => false end
  | None => false
  end.

(** The named field exists, is exported and is of type []string or of
    an array type with elements of type string. *)
Definition isExportedStrings (p : reflect.Struct) (name : string) : bool :=
  match reflect.FieldByName p name with
  | Some f =>
      match reflect.Val f with
      | reflect.OfStrings _ | reflect.OfStringArray _ _ =>
          String.eqb (reflect.PkgPath f) ""
      | _ => false
      end
  | None => false
  end.

Definition isNil (m : GoMap) : bool :=
  match m with None => true | Some _ => false end.

(** The bytes a call returned, and the attribute map it left. *)
Definition outputOf (r : result (string * GoMap * nat)) : result string :=
  match r with Ok (out, _, _) => Ok out | Panic w => Panic w end.

Definition attrsAfter (r : result (string * GoMap * nat)) : option GoMap :=
  match r with Ok (_, attrs, _) => Some attrs | Panic _ => None end.

(** [sub] occurs in [s]. *)
Definition contains (sub s : string) : Prop :=
  exists pre post, s = pre +:+ sub +:+ post.

Fixpoint prefixb (sub s : string) : bool :=
  match sub, s with
  | "", _ => true
  | String a sub', String b s' => Ascii.eqb a b && prefixb sub' s'
  | String _ _, "" => false
  end.

Fixpoint containsb (sub s : string) : bool :=
  prefixb sub s ||
  match s with
  | "" => false
  | String _ s' => containsb sub s'
  end.

(** ** A content type to evaluate the calls on

    [type Post struct { Title string `json:"title"`; Body string `json:"body"`;
    Timestamp int64 `json:"timestamp"`; Views uint64 `json:"views"`;
    Category []string `json:"category"`; Tags []string;
    slug string `json:"slug"` }] with the values of one post. *)

Definition titleField : reflect.StructField :=
  reflect.mkField "Title" "" [("json", "title")] (reflect.OfString "Tom & Jerry <3").

Definition post : reflect.Struct :=
  [ titleField;
    reflect.mkField "Body" "" [("json", "body")] (reflect.OfString "plain");
    reflect.mkField "Timestamp" "" [("json", "timestamp")] (reflect.OfInt "int64" 1479);
    reflect.mkField "Views" "" [("json", "views")] (reflect.OfUint "uint64" 5);
    reflect.mkField "Category" "" [("json", "category")] (reflect.OfStrings ["news"; "go"]);
    reflect.mkField "Tags" "" [] (reflect.OfStrings ["a"]);
    reflect.mkField "slug" "editor" [("json", "slug")] (reflect.OfString "tom") ].

(** [type Pair struct { Both [2]string `json:"both"` }] with one value. *)
Definition pair : reflect.Struct :=
  [ reflect.mkField "Both" "" [("json", "both")]
      (reflect.OfStringArray "[2]string" ["left"; "right"]) ].

(** Two admissible iteration orders: the order of [map_to_list] and its reverse. *)
Definition listOrder : rangeOracle := fun _ g => map_to_list g.
Definition reverseOrder : rangeOracle := fun _ g => reverse (map_to_list g).

Definition twoAttrs : GoMap := Some (<[ "type" := "text" ]> {[ "label" := "Title" ]}).

Definition labelOnly : GoMap := Some {[ "label" := "Title" ]}.

(** ** Vocabulary of the claims *)

(** [tagNameFromStructField] returns: the name is empty, or the field
    exists and has a json tag. *)
Definition resolves (p : reflect.Struct) (name : string) : bool :=
  String.eqb name "" || hasJsonTag p name.

(** The claim that a call aborts exactly when the field or its json tag is
    missing, in its two directions. *)
Definition abort_implies_missing : Prop :=
  forall (w : widget) (rng : rangeOracle) (fieldName : string) (p : reflect.Struct)
         (attrs options : GoMap) (n : nat),
    rangeOK rng ->
    isPanic (render w rng fieldName p attrs options n) = true ->
    hasJsonTag p fieldName = false.

Definition missing_implies_abort : Prop :=
  forall (w : widget) (rng : rangeOracle) (fieldName : string) (p : reflect.Struct)
         (attrs options : GoMap) (n : nat),
    rangeOK rng ->
    hasJsonTag p fieldName = false ->
    isPanic (render w rng fieldName p attrs options n) = true.

(** The claim that no call stores into the attribute map it is given. *)
Definition leaves_attrs_unchanged : Prop :=
  forall (w : widget) (rng : rangeOracle) (fieldName : string) (p : reflect.Struct)
         (attrs options : GoMap) (n : nat) (out : string) (attrs' : GoMap) (n' : nat),
    rangeOK rng ->
    render w rng fieldName p attrs options n = Ok (out, attrs', n') ->
    attrs' = attrs.

(** Two calls of [w] on equal inputs return the same bytes, whatever the
    admissible iteration orders of the two executions. *)
Definition deterministic (w : widget) : Prop :=
  forall (rng1 rng2 : rangeOracle) (fieldName : string) (p : reflect.Struct)
         (attrs options : GoMap) (n1 n2 : nat),
    rangeOK rng1 -> rangeOK rng2 ->
    outputOf (render w rng1 fieldName p attrs options n1)
    = outputOf (render w rng2 fieldName p attrs options n2).

(** Every character of [s] satisfies [ok]. *)
Fixpoint allChars (ok : ascii -> bool) (s : string) : bool :=
  match s with
  | "" => true
  | String c rest => ok c && allChars ok rest
  end.

(** The characters that end an attribute value or open a tag. *)
Definition breaksMarkup (c : ascii) : bool :=
  Ascii.eqb c "<"%char || Ascii.eqb c ">"%char || Ascii.eqb c dquote
  || Ascii.eqb c "'"%char.

(** The characters [html.EscapeString] replaces. *)
Definition isSpecial (c : ascii) : bool := Ascii.eqb c "&"%char || breaksMarkup c.

Definition valueAttr (s : string) : string := "value=" +:+ quoted s.

(** The claim that the value attribute written by [w] holds the current
    value of a string-valued field. *)
Definition value_attr_is_field_value (w : widget) : Prop :=
  forall (rng : rangeOracle) (fieldName : string) (p : reflect.Struct)
         (attrs options : GoMap) (n : nat) (f : reflect.StructField) (s t : string),
    rangeOK rng ->
    reflect.FieldByName p fieldName = Some f ->
    reflect.Val f = reflect.OfString s ->
    reflect.Lookup (reflect.Tag f) "json" = Some t ->
    exists out, outputOf (render w rng fieldName p attrs options n) = Ok out /\
                contains (valueAttr s) out.

(** The integer a field of an integer kind, signed or unsigned, holds. *)
Definition integerValue (d : reflect.Data) : option Z :=
  match d with
  | reflect.OfInt _ z | reflect.OfUint _ z => Some z
  | _ => None
  end.

(** The claim that [Timestamp] shows the value of every integer-valued
    field: nothing for 0, the decimal form otherwise. *)
Definition timestamp_shows_integer : Prop :=
  forall (rng : rangeOracle) (fieldName : string) (p : reflect.Struct) (attrs : GoMap)
         (n : nat) (f : reflect.StructField) (t : string) (z : Z),
    rangeOK rng ->
    reflect.FieldByName p fieldName = Some f ->
    reflect.Lookup (reflect.Tag f) "json" = Some t ->
    integerValue (reflect.Val f) = Some z ->
    outputOf (Timestamp rng fieldName p attrs n)
    = Ok (inputBytes (mapIndex attrs "label") (if Z.eqb z 0 then "" else decimal z)
            (rng n (entries attrs)) t).

(** The claim that the wrapper [Checkbox] writes carries an empty name. *)
Definition checkbox_writes_empty_name : Prop :=
  forall (rng : rangeOracle) (fieldName : string) (p : reflect.Struct)
         (attrs options : GoMap) (n : nat) (out : string) (attrs' : GoMap) (n' : nat),
    rangeOK rng ->
    Checkbox rng fieldName p attrs options n = Ok (out, attrs', n') ->
    contains ("name=" +:+ quoted "") out.

(** ** Vocabulary of the further properties *)

(** [f] applied to every character of [s]. *)
Fixpoint mapChars (f : ascii -> ascii) (s : string) : string :=
  match s with
  | "" => ""
  | String c rest => String (f c) (mapChars f rest)
  end.

(** A space becomes a dash, any other character stays. *)
Definition dashChar (c : ascii) : ascii :=
  if Ascii.eqb c " "%char then "-"%char else c.

(** The element carries the attribute [selected]. *)
Definition isSelected (e : element) : bool :=
  bool_decide (is_Some (entries (Attrs e) !! "selected")).

(** The number of bytes a call returned, or the panic it ended in. *)
Definition lengthOf (r : result (string * GoMap * nat)) : result nat :=
  match r with Ok (out, _, _) => Ok (String.length out) | Panic w => Panic w end.

(** The bytes of the index written into the names of [m] inputs, the
    first of them numbered [i]. *)
Fixpoint indexLength (i : Z) (m : nat) : nat :=
  match m with
  | O => 0
  | S m' => String.length (decimal i) + indexLength (i + 1) m'
  end.

(** ** Strings *)

Example decimal_samples :
  decimal 0 = "0" /\ decimal 42 = "42" /\ decimal (-7) = "-7".
Proof. repeat split; reflexivity. Qed.

Example Split_Join_sample :
  Join (Split "Start  date " " ") "-" = "Start--date-".
Proof. reflexivity. Qed.

Lemma sapp_cons (x : ascii) (a b : string) : String x a +:+ b = String x (a +:+ b).
Proof. reflexivity. Qed.

Lemma sapp_assoc (a b c : string) : (a +:+ b) +:+ c = a +:+ b +:+ c.
Proof.
  induction a as [|x a IH]; [reflexivity |].
  rewrite !sapp_cons. f_equal. exact IH.
Qed.

Lemma sapp_nil_r (a : string) : a +:+ "" = a.
Proof.
  induction a as [|x a IH]; [reflexivity |].
  rewrite sapp_cons. f_equal. exact IH.
Qed.

(** Both sides of an equation between concatenations, nested to the right. *)
Ltac str_norm :=
  unfold quoted, dq, inputField;
  rewrite ?sapp_assoc, ?sapp_nil_r.

Lemma prefixb_app (sub post : string) : prefixb sub (sub +:+ post) = true.
Proof.
  induction sub as [|a sub IH]; [reflexivity |].
  rewrite sapp_cons. simpl. rewrite Ascii.eqb_refl. exact IH.
Qed.

Lemma contains_containsb (sub s : string) : contains sub s -> containsb sub s = true.
Proof.
  intros (pre & post & ->).
  induction pre as [|c pre IH].
  - change ("" +:+ sub +:+ post) with (sub +:+ post).
    destruct (sub +:+ post) eqn:E; simpl; rewrite <- E, prefixb_app; reflexivity.
  - rewrite sapp_cons. simpl. rewrite IH. apply orb_true_r.
Qed.

Lemma writeAttrs_markup (buf : string) (kvs : list (string * string)) :
  writeAttrs buf kvs = buf +:+ attrsMarkup kvs.
Proof.
  unfold writeAttrs. revert buf.
  induction kvs as [|kv kvs IH]; intros buf; simpl.
  - now rewrite sapp_nil_r.
  - rewrite IH. unfold writeAttr, attrMarkup. str_norm. reflexivity.
Qed.

(** ** What the element writers produce *)

Lemma domElementSelfClose_markup (rng : rangeOracle) (e : element) (n : nat) :
  domElementSelfClose rng e n = Ok (selfCloseMarkup (rng n (entries (Attrs e))) e, S n).
Proof.
  unfold domElementSelfClose, selfCloseMarkup, bind, range, ret, activeLabelFor.
  rewrite writeAttrs_markup.
  destruct (String.eqb (label e) ""); str_norm; reflexivity.
Qed.

Lemma domElement_markup (rng : rangeOracle) (e : element) (n : nat) :
  domElement rng e n = Ok (elementMarkup (rng n (entries (Attrs e))) e, S n).
Proof.
  unfold domElement, elementMarkup, bind, range, ret, activeLabelFor.
  rewrite writeAttrs_markup.
  destruct (String.eqb (label e) ""); str_norm; reflexivity.
Qed.

Lemma domElementCheckbox_markup (rng : rangeOracle) (e : element) (n : nat) :
  domElementCheckbox rng e n = Ok (checkboxMarkup (rng n (entries (Attrs e))) e, S n).
Proof.
  unfold domElementCheckbox, checkboxMarkup, bind, range, ret.
  rewrite writeAttrs_markup.
  destruct (String.eqb (label e) ""); str_norm; reflexivity.
Qed.

Lemma writeChildren_markup (rng : rangeOracle) (render : element -> M string)
  (markup : list (string * string) -> element -> string)
  (Hrender : forall e n, render e n = Ok (markup (rng n (entries (Attrs e))) e, S n))
  (children : list element) (buf : string) (n : nat) :
  writeChildren render buf children n =
  Ok (buf +:+ childrenMarkup rng markup n children, n + length children).
Proof.
  revert buf n. induction children as [|c rest IH]; intros buf n; simpl.
  - unfold ret. rewrite sapp_nil_r. do 2 f_equal. lia.
  - unfold bind. rewrite Hrender, IH, sapp_assoc. do 2 f_equal. lia.
Qed.

Lemma domElementWithChildrenSelect_markup (rng : rangeOracle) (e : element)
  (children : list element) (n : nat) :
  domElementWithChildrenSelect rng e children n =
  Ok (viewBuf e +:+ "<div class=" +:+ quoted "input-field col s6" +:+ ">"
        +:+ "<" +:+ TagName e +:+ " " +:+ attrsMarkup (rng n (entries (Attrs e)))
        +:+ " name=" +:+ quoted (Name e) +:+ " >"
        +:+ childrenMarkup rng elementMarkup (S n) children
        +:+ "</" +:+ TagName e +:+ ">" +:+ activeLabel (label e) +:+ "</div>",
      S n + length children).
Proof.
  unfold domElementWithChildrenSelect, bind, range, ret, activeLabel.
  rewrite writeAttrs_markup.
  rewrite (writeChildren_markup rng _ elementMarkup (domElement_markup rng)).
  destruct (String.eqb (label e) ""); str_norm; reflexivity.
Qed.

Lemma domElementWithChildrenCheckbox_markup (rng : rangeOracle) (e : element)
  (children : list element) (n : nat) :
  domElementWithChildrenCheckbox rng e children n =
  Ok (viewBuf e +:+ "<" +:+ TagName e +:+ " " +:+ attrsMarkup (rng n (entries (Attrs e)))
        +:+ " >" +:+ activeLabel (label e)
        +:+ childrenMarkup rng checkboxMarkup (S n) children
        +:+ "</" +:+ TagName e +:+ "><div class=" +:+ quoted "clear padding"
        +:+ ">&nbsp;</div>",
      S n + length children).
Proof.
  unfold domElementWithChildrenCheckbox, bind, range, ret, activeLabel.
  rewrite writeAttrs_markup.
  destruct (String.eqb (label e) "");
    rewrite (writeChildren_markup rng _ checkboxMarkup (domElementCheckbox_markup rng));
    str_norm; reflexivity.
Qed.

(** ** What the rendering calls produce *)

Lemma tagName_empty (p : reflect.Struct) : tagNameFromStructField "" p = Ok "".
Proof. reflexivity. Qed.

Lemma tagName_empty_newElement (tagName label : string) (p : reflect.Struct)
  (attrs : GoMap) :
  newElement tagName label "" p attrs =
  Ok {| TagName := tagName; Attrs := attrs; Name := ""; label := label;
        data := "<invalid Value>"; viewBuf := "" |}.
Proof. reflexivity. Qed.

Lemma Input_markup (rng : rangeOracle) (fieldName : string) (p : reflect.Struct)
  (attrs : GoMap) (n : nat) :
  Input rng fieldName p attrs n =
  match tagNameFromStructField fieldName p with
  | Ok t =>
      Ok (inputBytes (mapIndex attrs "label")
            (EscapeString (reflect.ValueString (valueFromStructField fieldName p)))
            (rng n (entries attrs)) t, attrs, S n)
  | Panic w => Panic w
  end.
Proof.
  unfold Input, bind, lift, newElement, rbind.
  destruct (tagNameFromStructField fieldName p) as [t|w]; [|reflexivity].
  rewrite domElementSelfClose_markup. unfold ret, selfCloseMarkup, inputBytes, nameAttr.
  now rewrite !sapp_assoc.
Qed.

Lemma Textarea_markup (rng : rangeOracle) (fieldName : string) (p : reflect.Struct)
  (attrs : GoMap) (n : nat) :
  Textarea rng fieldName p attrs n =
  match tagNameFromStructField fieldName p with
  | Ok t =>
      Ok (textareaBytes (mapIndex attrs "label")
            (EscapeString (reflect.ValueString (valueFromStructField fieldName p)))
            (rng n (entries attrs)) t, attrs, S n)
  | Panic w => Panic w
  end.
Proof.
  unfold Textarea, bind, lift, newElement, rbind.
  destruct (tagNameFromStructField fieldName p) as [t|w]; [|reflexivity].
  rewrite domElement_markup. unfold ret, elementMarkup, textareaBytes, nameAttr.
  now rewrite !sapp_assoc.
Qed.

Lemma Timestamp_markup (rng : rangeOracle) (fieldName : string) (p : reflect.Struct)
  (attrs : GoMap) (n : nat) :
  Timestamp rng fieldName p attrs n =
  match reflect.ValueInt (valueFromStructField fieldName p) with
  | Ok z =>
      match tagNameFromStructField fieldName p with
      | Ok t =>
          Ok (inputBytes (mapIndex attrs "label")
                (EscapeString (if Z.eqb z 0 then "" else decimal z))
                (rng n (entries attrs)) t, attrs, S n)
      | Panic w => Panic w
      end
  | Panic w => Panic w
  end.
Proof.
  unfold Timestamp, bind, lift.
  destruct (reflect.ValueInt _) as [z|w]; [|reflexivity].
  destruct (tagNameFromStructField fieldName p) as [t|w]; [|reflexivity].
  rewrite domElementSelfClose_markup. unfold ret, selfCloseMarkup, inputBytes, nameAttr.
  now rewrite !sapp_assoc.
Qed.

Lemma File_markup (fieldName : string) (p : reflect.Struct) (attrs : GoMap) (n : nat) :
  File fieldName p attrs n =
  match tagNameFromStructField fieldName p with
  | Ok t =>
      Ok (fileBytes (mapIndex attrs "label")
            (reflect.ValueString (valueFromStructField fieldName p)) t, attrs, n)
  | Panic w => Panic w
  end.
Proof.
  unfold File, bind, lift.
  destruct (tagNameFromStructField fieldName p); [|reflexivity].
  unfold ret, fileBytes, File_tmpl, nameAttr, quoted. now rewrite !sapp_assoc.
Qed.

Lemma Richtext_markup (rng : rangeOracle) (fieldName : string) (p : reflect.Struct)
  (attrs : GoMap) (n : nat) :
  Richtext rng fieldName p attrs n =
  match attrs with
  | None => Panic NilMapAssign
  | Some g =>
      let g' := <[ "id" := "richtext-" +:+ fieldName ]>
                  (<[ "class" := "richtext " +:+ fieldName ]> g) in
      match tagNameFromStructField fieldName p with
      | Ok t =>
          Ok (richtextBytes (mapIndex attrs "label") fieldName
                (EscapeString (reflect.ValueString (valueFromStructField fieldName p)))
                (rng n g') t (mapIndex (Some g') "placeholder"),
              Some g', S n)
      | Panic w => Panic w
      end
  end.
Proof.
  unfold Richtext, bind, lift.
  destruct attrs as [g|]; [|reflexivity]. unfold mapAssign. cbv iota beta.
  destruct (tagNameFromStructField fieldName p) as [t|w]; [|reflexivity].
  rewrite domElement_markup.
  unfold ret, elementMarkup, richtextBytes, Richtext_input, nameAttr, quoted.
  cbn [Attrs entries]. rewrite !sapp_assoc. reflexivity.
Qed.

Lemma selectOptions_map (fieldVal : string) (kvs : list (string * string))
  (opts : list element) :
  foldl (selectOption fieldVal) opts kvs = opts ++ map (optionElement fieldVal) kvs.
Proof.
  revert opts. induction kvs as [|kv kvs IH]; intros opts; simpl.
  - now rewrite app_nil_r.
  - rewrite IH. unfold selectOption, optionElement.
    rewrite <- app_assoc. simpl. destruct (String.eqb kv.1 fieldVal); reflexivity.
Qed.

Lemma Select_markup (rng : rangeOracle) (fieldName : string) (p : reflect.Struct)
  (attrs options : GoMap) (n : nat) :
  Select rng fieldName p attrs options n =
  match attrs with
  | None => Panic NilMapAssign
  | Some g =>
      let g' := <[ "class" := "browser-default" ]> g in
      let fieldVal := reflect.ValueString (valueFromStructField fieldName p) in
      let kvs := rng n (entries options) in
      match tagNameFromStructField fieldName p with
      | Ok t =>
          Ok ("<div class=" +:+ quoted "input-field col s6" +:+ ">"
                +:+ "<select " +:+ attrsMarkup (rng (S n) g') +:+ nameAttr t +:+ " >"
                +:+ childrenMarkup rng elementMarkup (S (S n))
                      (cta :: reset :: map (optionElement fieldVal) kvs)
                +:+ "</select>" +:+ activeLabel (mapIndex (Some g') "label") +:+ "</div>",
              Some g', S (S n) + S (S (length kvs)))
      | Panic w => Panic w
      end
  end.
Proof.
  unfold Select, bind, lift, newElement, rbind.
  destruct attrs as [g|]; [|reflexivity]. unfold mapAssign. cbv iota beta.
  destruct (tagNameFromStructField fieldName p) as [t|w]; [|reflexivity].
  unfold range. rewrite selectOptions_map, domElementWithChildrenSelect_markup.
  unfold ret, nameAttr. simpl. rewrite length_map, !sapp_assoc. reflexivity.
Qed.

Lemma tagNameMulti_ok (name t : string) (i : Z) (p : reflect.Struct) :
  tagNameFromStructField name p = Ok t ->
  tagNameFromStructFieldMulti name i p = Ok (t +:+ "." +:+ decimal i).
Proof. unfold tagNameFromStructFieldMulti, rbind. now intros ->. Qed.

Lemma checkboxOptions_ok (fieldName t : string) (p : reflect.Struct)
  (checked : list string) (kvs : list (string * string)) (i : Z) (opts : list element) :
  tagNameFromStructField fieldName p = Ok t ->
  checkboxOptions fieldName p checked kvs i opts =
  Ok (opts ++ checkboxInputs t checked kvs i).
Proof.
  intros Ht. revert i opts.
  induction kvs as [|[k v] kvs IH]; intros i opts; simpl.
  - now rewrite app_nil_r.
  - rewrite (tagNameMulti_ok _ _ _ _ Ht). unfold rbind.
    rewrite IH, <- app_assoc. reflexivity.
Qed.

Lemma checkboxOptions_panic (fieldName : string) (w : panic) (p : reflect.Struct)
  (checked : list string) (kvs : list (string * string)) (i : Z) (opts : list element) :
  tagNameFromStructField fieldName p = Panic w ->
  checkboxOptions fieldName p checked kvs i opts =
  match kvs with [] => Ok opts | _ :: _ => Panic w end.
Proof.
  intros Hw. destruct kvs as [|[k v] kvs]; simpl; [reflexivity |].
  unfold tagNameFromStructFieldMulti, rbind. now rewrite Hw.
Qed.

Lemma tagsInputs_ok (fieldName t : string) (p : reflect.Struct) (tags : list string)
  (i : Z) (html : string) (initial : list string) :
  tagNameFromStructField fieldName p = Ok t ->
  tagsInputs fieldName p tags i html initial =
  Ok (html +:+ tagsMarkup t tags i, initial ++ map Tags_initial tags).
Proof.
  intros Ht. revert i html initial.
  induction tags as [|tag tags IH]; intros i html initial; simpl.
  - now rewrite sapp_nil_r, app_nil_r.
  - rewrite (tagNameMulti_ok _ _ _ _ Ht). unfold rbind.
    rewrite IH, sapp_assoc, <- app_assoc. reflexivity.
Qed.

(** The wrapper and the inputs of a [Checkbox] whose options are visited
    in the order [kvs]. *)
Lemma Checkbox_markup (rng : rangeOracle) (fieldName : string) (p : reflect.Struct)
  (attrs options : GoMap) (n : nat) :
  Checkbox rng fieldName p attrs options n =
  match attrs with
  | None => Panic NilMapAssign
  | Some g =>
      let g' := <[ "class" := "input-field col s12" ]> g in
      let kvs := rng n (entries options) in
      match reflect.asStrings (valueFromStructField fieldName p) with
      | Ok checked =>
          match checkboxOptions fieldName p checked kvs 0 [] with
          | Ok opts =>
              Ok ("<div " +:+ attrsMarkup (rng (S n) g') +:+ " >"
                    +:+ activeLabel (mapIndex (Some g') "label")
                    +:+ childrenMarkup rng checkboxMarkup (S (S n)) opts
                    +:+ "</div><div class=" +:+ quoted "clear padding" +:+ ">&nbsp;</div>",
                  Some g', S (S n) + length opts)
          | Panic w => Panic w
          end
      | Panic w => Panic w
      end
  end.
Proof.
  unfold Checkbox, bind, lift.
  destruct attrs as [g|]; [|reflexivity]. unfold mapAssign. cbv iota beta.
  rewrite tagName_empty_newElement.
  destruct (reflect.asStrings _) as [checked|w]; [|reflexivity].
  unfold range.
  destruct (checkboxOptions _ _ _ _ _ _) as [opts|w]; [|reflexivity].
  rewrite domElementWithChildrenCheckbox_markup. reflexivity.
Qed.

Lemma Tags_markup (fieldName : string) (p : reflect.Struct) (attrs : GoMap) (n : nat) :
  Tags fieldName p attrs n =
  match tagNameFromStructField fieldName p with
  | Ok t =>
      match reflect.asStrings (valueFromStructField fieldName p) with
      | Ok tags =>
          Ok (Tags_html t (mapIndex attrs "label") +:+ tagsMarkup t tags 0 +:+ "</div>"
                +:+ Tags_script t (map Tags_initial tags), attrs, n)
      | Panic w => Panic w
      end
  | Panic w => Panic w
  end.
Proof.
  unfold Tags, bind, lift.
  destruct (tagNameFromStructField fieldName p) as [t|w] eqn:Ht; [|reflexivity].
  destruct (reflect.asStrings _) as [tags|w]; [|reflexivity].
  rewrite (tagsInputs_ok _ _ _ _ _ _ _ Ht). unfold ret. simpl.
  rewrite !sapp_assoc. reflexivity.
Qed.

Lemma listOrder_ok : rangeOK listOrder.
Proof. intros n g. reflexivity. Qed.

Lemma reverseOrder_ok : rangeOK reverseOrder.
Proof. intros n g. unfold reverseOrder. apply reverse_Permutation. Qed.

(** ** Field names *)

Lemma tagName_of_field (p : reflect.Struct) (fieldName t : string)
  (f : reflect.StructField) :
  reflect.FieldByName p fieldName = Some f ->
  reflect.Lookup (reflect.Tag f) "json" = Some t ->
  tagNameFromStructField fieldName p = Ok t.
Proof.
  intros Hf Ht. unfold tagNameFromStructField.
  destruct (String.eqb fieldName "") eqn:E.
  - unfold reflect.FieldByName in Hf. now rewrite E in Hf.
  - now rewrite Hf, Ht.
Qed.

(** C2. When the struct has a field [fieldName] whose json tag is [t],
    [tagNameFromStructField] returns [t], and the widget rendered for the
    field is named [t]: [Input], [Textarea] and [Select] write the
    attribute name with value [t] last in their tag, [File] and [Richtext]
    write it on the hidden input that stores the value. *)
Theorem tag_name_is_json_tag (p : reflect.Struct) (fieldName t : string)
  (f : reflect.StructField) :
  reflect.FieldByName p fieldName = Some f ->
  reflect.Lookup (reflect.Tag f) "json" = Some t ->
  tagNameFromStructField fieldName p = Ok t /\
  forall (rng : rangeOracle) (attrs : GoMap) (n : nat),
    let v := reflect.ValueString (valueFromStructField fieldName p) in
    let label := mapIndex attrs "label" in
    let kvs := rng n (entries attrs) in
    Input rng fieldName p attrs n
      = Ok (inputBytes label (EscapeString v) kvs t, attrs, S n) /\
    Textarea rng fieldName p attrs n
      = Ok (textareaBytes label (EscapeString v) kvs t, attrs, S n) /\
    File fieldName p attrs n = Ok (fileBytes label v t, attrs, n) /\
    forall g : gmap string string,
      let gr := <[ "id" := "richtext-" +:+ fieldName ]>
                  (<[ "class" := "richtext " +:+ fieldName ]> g) in
      let gs := <[ "class" := "browser-default" ]> g in
      Richtext rng fieldName p (Some g) n
        = Ok (richtextBytes (mapIndex (Some g) "label") fieldName (EscapeString v)
                (rng n gr) t (mapIndex (Some gr) "placeholder"), Some gr, S n) /\
      forall options : GoMap,
        let opts := rng n (entries options) in
        Select rng fieldName p (Some g) options n =
          Ok ("<div class=" +:+ quoted "input-field col s6" +:+ ">"
                +:+ "<select " +:+ attrsMarkup (rng (S n) gs) +:+ nameAttr t +:+ " >"
                +:+ childrenMarkup rng elementMarkup (S (S n))
                      (cta :: reset :: map (optionElement v) opts)
                +:+ "</select>" +:+ activeLabel (mapIndex (Some gs) "label") +:+ "</div>",
              Some gs, S (S n) + S (S (length opts))).
Proof.
  intros Hf Ht.
  pose proof (tagName_of_field _ _ _ _ Hf Ht) as Htag.
  split; [exact Htag |].
  intros rng attrs n v label kvs. repeat split.
  - now rewrite Input_markup, Htag.
  - now rewrite Textarea_markup, Htag.
  - now rewrite File_markup, Htag.
  - now rewrite Richtext_markup, Htag.
  - intros options opts. now rewrite Select_markup, Htag.
Qed.

Lemma tag_name_is_json_tag_witness :
  tagNameFromStructField "Title" post = Ok "title".
Proof.
  exact (proj1 (tag_name_is_json_tag post "Title" "title" titleField eq_refl eq_refl)).
Defined.

(** ** Names of multi-valued fields *)

Lemma childrenMarkup_imap (rng : rangeOracle)
  (markup : list (string * string) -> element -> string) (children : list element)
  (n : nat) :
  childrenMarkup rng markup n children =
  joinAll (imap (fun j c => markup (rng (n + j) (entries (Attrs c))) c) children).
Proof.
  revert n. induction children as [|c rest IH]; intros n; [reflexivity |].
  simpl. rewrite Nat.add_0_r, IH. do 2 f_equal.
  apply imap_ext. intros j x _. simpl. do 2 f_equal. lia.
Qed.

Lemma checkboxInputs_imap (t : string) (checked : list string)
  (kvs : list (string * string)) (i : Z) :
  checkboxInputs t checked kvs i =
  imap (fun j kv => checkboxInput t checked (i + Z.of_nat j) kv) kvs.
Proof.
  revert i. induction kvs as [|kv rest IH]; intros i; [reflexivity |].
  simpl. rewrite Z.add_0_r, IH. f_equal.
  apply imap_ext. intros j x _. simpl. f_equal. lia.
Qed.

Lemma tagsMarkup_imap (t : string) (tags : list string) (i : Z) :
  tagsMarkup t tags i =
  joinAll (imap (fun j tag => Tags_input tag (t +:+ "." +:+ decimal (i + Z.of_nat j))) tags).
Proof.
  revert i. induction tags as [|tag rest IH]; intros i; [reflexivity |].
  simpl. rewrite Z.add_0_r, IH. do 2 f_equal.
  apply imap_ext. intros j x _. simpl. do 4 f_equal. lia.
Qed.

Lemma Tags_input_bytes (tag tagName : string) :
  Tags_input tag tagName =
  "<input type=" +:+ quoted "hidden" +:+ " class=" +:+ quoted ("tag-" +:+ tag)
    +:+ " name=" +:+ tagName +:+ " value=" +:+ quoted tag +:+ "/>".
Proof. unfold Tags_input, quoted. now rewrite !sapp_assoc. Qed.

(** C3. Under the json tag [t] of the field, [tagNameFromStructFieldMulti]
    at index [i] returns [t], a dot and the decimal form of [i]; the inputs
    [Checkbox] writes for the options, in the order it visits them, and the
    hidden inputs [Tags] writes for the stored tags, in slice order, are
    named with the indices 0, 1, 2, ... in the order they are written.
    The hidden input of [Tags] is spelled out: its name is written without
    quotes. *)
Theorem multi_value_names_are_indexed (p : reflect.Struct) (fieldName t : string) :
  tagNameFromStructField fieldName p = Ok t ->
  (forall i : Z,
     tagNameFromStructFieldMulti fieldName i p = Ok (t +:+ "." +:+ decimal i)) /\
  (forall (rng : rangeOracle) (g : gmap string string) (options : GoMap) (n : nat)
          (checked : list string),
     reflect.asStrings (valueFromStructField fieldName p) = Ok checked ->
     let kvs := rng n (entries options) in
     let g' := <[ "class" := "input-field col s12" ]> g in
     let inputs := imap (fun j kv => checkboxInput t checked (Z.of_nat j) kv) kvs in
     Checkbox rng fieldName p (Some g) options n =
       Ok ("<div " +:+ attrsMarkup (rng (S n) g') +:+ " >"
             +:+ activeLabel (mapIndex (Some g') "label")
             +:+ joinAll (imap (fun j e =>
                                  checkboxMarkup (rng (S (S n) + j) (entries (Attrs e))) e)
                               inputs)
             +:+ "</div><div class=" +:+ quoted "clear padding" +:+ ">&nbsp;</div>",
           Some g', S (S n) + length kvs) /\
     forall (j : nat) (kv : string * string),
       kvs !! j = Some kv ->
       exists e, inputs !! j = Some e /\
                 Name e = t +:+ "." +:+ decimal (Z.of_nat j) /\ label e = kv.2) /\
  (forall (attrs : GoMap) (n : nat) (tags : list string),
     reflect.asStrings (valueFromStructField fieldName p) = Ok tags ->
     Tags fieldName p attrs n =
       Ok (Tags_html t (mapIndex attrs "label")
             +:+ joinAll (imap (fun j tag =>
                                  "<input type=" +:+ quoted "hidden" +:+ " class="
                                    +:+ quoted ("tag-" +:+ tag)
                                    +:+ " name=" +:+ (t +:+ "." +:+ decimal (Z.of_nat j))
                                    +:+ " value=" +:+ quoted tag +:+ "/>")
                               tags)
             +:+ "</div>" +:+ Tags_script t (map Tags_initial tags),
           attrs, n)).
Proof.
  intros Ht. split; [|split].
  - intros i. now apply tagNameMulti_ok.
  - intros rng g options n checked Hc kvs g' inputs. split.
    + rewrite Checkbox_markup. cbv zeta. rewrite Hc.
      rewrite (checkboxOptions_ok _ _ _ _ _ _ _ Ht). simpl app.
      rewrite childrenMarkup_imap, checkboxInputs_imap, length_imap.
      reflexivity.
    + intros j kv Hj. exists (checkboxInput t checked (Z.of_nat j) kv).
      unfold inputs. rewrite list_lookup_imap, Hj. repeat split.
  - intros attrs n tags Hs.
    rewrite Tags_markup, Ht, Hs, tagsMarkup_imap.
    erewrite imap_ext; [reflexivity |].
    intros j tag _. apply Tags_input_bytes.
Qed.

Lemma multi_value_names_are_indexed_witness :
  tagNameFromStructFieldMulti "Category" 2 post = Ok "category.2" /\
  outputOf (Tags "Category" post None 0) =
    Ok (Tags_html "category" ""
          +:+ "<input type=" +:+ quoted "hidden" +:+ " class=" +:+ quoted "tag-news"
          +:+ " name=category.0 value=" +:+ quoted "news" +:+ "/>"
          +:+ "<input type=" +:+ quoted "hidden" +:+ " class=" +:+ quoted "tag-go"
          +:+ " name=category.1 value=" +:+ quoted "go" +:+ "/>"
          +:+ "</div>" +:+ Tags_script "category" ["{tag: news}"; "{tag: go}"]).
Proof.
  pose proof (multi_value_names_are_indexed post "Category" "category" eq_refl)
    as (H1 & _ & H3).
  split; [exact (H1 2%Z) |].
  rewrite (H3 None 0 ["news"; "go"] eq_refl). reflexivity.
Defined.

(** ** When a rendering call aborts *)

Lemma tagName_isOk (p : reflect.Struct) (name : string) :
  isOk (tagNameFromStructField name p) = resolves p name.
Proof.
  unfold tagNameFromStructField, resolves, hasJsonTag.
  destruct (String.eqb name "") eqn:E; [reflexivity |].
  destruct (reflect.FieldByName p name) as [f|]; [|reflexivity].
  destruct (reflect.Lookup (reflect.Tag f) "json") as [t|]; reflexivity.
Qed.

Lemma field_name_nonempty (p : reflect.Struct) (name : string) (f : reflect.StructField) :
  reflect.FieldByName p name = Some f -> String.eqb name "" = false.
Proof.
  unfold reflect.FieldByName. destruct (String.eqb name ""); [discriminate | reflexivity].
Qed.

Lemma ValueInt_isOk (p : reflect.Struct) (name : string) :
  isOk (reflect.ValueInt (valueFromStructField name p)) = isIntField p name.
Proof.
  unfold valueFromStructField, reflect.ValueFieldByName, reflect.ValueInt, isIntField.
  destruct (reflect.FieldByName p name) as [f|]; [|reflexivity].
  simpl. destruct (reflect.Val f); reflexivity.
Qed.

Lemma asStrings_isOk (p : reflect.Struct) (name : string) :
  isOk (reflect.asStrings (valueFromStructField name p)) = isExportedStrings p name.
Proof.
  unfold valueFromStructField, reflect.ValueFieldByName, reflect.asStrings,
    isExportedStrings.
  destruct (reflect.FieldByName p name) as [f|]; [|reflexivity].
  simpl. destruct (reflect.Val f); simpl;
    try destruct (String.eqb (reflect.PkgPath f) ""); reflexivity.
Qed.

Lemma isIntField_resolves (p : reflect.Struct) (name : string) :
  isIntField p name = true -> resolves p name = hasJsonTag p name.
Proof.
  unfold isIntField, resolves.
  destruct (reflect.FieldByName p name) as [f|] eqn:E; [|discriminate].
  now rewrite (field_name_nonempty _ _ _ E).
Qed.

Lemma isExportedStrings_resolves (p : reflect.Struct) (name : string) :
  isExportedStrings p name = true -> resolves p name = hasJsonTag p name.
Proof.
  unfold isExportedStrings, resolves.
  destruct (reflect.FieldByName p name) as [f|] eqn:E; [|discriminate].
  now rewrite (field_name_nonempty _ _ _ E).
Qed.

Lemma range_nil_iff (rng : rangeOracle) (n : nat) (g : gmap string string) :
  rangeOK rng -> rng n g = [] <-> g = ∅.
Proof.
  intros Hok. specialize (Hok n g). split.
  - intros E. rewrite E in Hok.
    apply Permutation_nil in Hok. now apply map_to_list_empty_iff.
  - intros ->. rewrite map_to_list_empty in Hok. symmetry in Hok.
    now apply Permutation_nil.
Qed.

(** C1, as stated, fails in both directions.  [Timestamp] on the
    string-valued field Title, which exists and has a json tag, aborts in
    [Value.Int]; [Checkbox] on the field Tags, which has no json tag,
    returns when there is no option to name. *)
Lemma abort_not_iff_missing_field_or_tag :
  ~ abort_implies_missing /\ ~ missing_implies_abort.
Proof.
  split; intros H.
  - specialize (H WTimestamp listOrder "Title" post None None 0 listOrder_ok eq_refl).
    vm_compute in H. discriminate H.
  - specialize (H WCheckbox listOrder "Tags" post (Some ∅) None 0 listOrder_ok eq_refl).
    vm_compute in H. discriminate H.
Qed.

Lemma Select_returns (rng : rangeOracle) (fieldName : string) (p : reflect.Struct)
  (attrs options : GoMap) (n : nat) :
  isOk (Select rng fieldName p attrs options n)
  = negb (isNil attrs) && resolves p fieldName.
Proof.
  rewrite Select_markup, <- tagName_isOk. destruct attrs as [g|]; [|reflexivity].
  cbv zeta. now destruct (tagNameFromStructField fieldName p).
Qed.

Lemma Checkbox_returns (rng : rangeOracle) (fieldName : string) (p : reflect.Struct)
  (attrs options : GoMap) (n : nat) :
  rangeOK rng ->
  isOk (Checkbox rng fieldName p attrs options n)
  = negb (isNil attrs) && isExportedStrings p fieldName &&
    (bool_decide (entries options = ∅) || hasJsonTag p fieldName).
Proof.
  intros Hok. pose proof (tagName_isOk p fieldName) as Ht.
  rewrite Checkbox_markup. destruct attrs as [g|]; [|reflexivity].
  cbv zeta. pose proof (asStrings_isOk p fieldName) as Hs.
  destruct (reflect.asStrings _) as [checked|w]; simpl in Hs; rewrite <- Hs;
    [|reflexivity].
  symmetry in Hs. pose proof (isExportedStrings_resolves _ _ Hs) as Hr.
  rewrite <- Hr, <- Ht. simpl negb. simpl andb.
  destruct (tagNameFromStructField fieldName p) as [t|w] eqn:E.
  - rewrite (checkboxOptions_ok _ _ _ _ _ _ _ E). simpl. now rewrite orb_true_r.
  - rewrite (checkboxOptions_panic _ _ _ _ _ _ _ E). simpl. rewrite orb_false_r.
    destruct (rng n (entries options)) as [|kv kvs] eqn:Ek.
    + apply (range_nil_iff rng n _ Hok) in Ek. simpl. symmetry.
      now apply bool_decide_eq_true.
    + simpl. symmetry. apply bool_decide_eq_false. intros Hem.
      apply (range_nil_iff rng n _ Hok) in Hem. congruence.
Qed.

Lemma Tags_returns (fieldName : string) (p : reflect.Struct) (attrs : GoMap) (n : nat) :
  isOk (Tags fieldName p attrs n)
  = hasJsonTag p fieldName && isExportedStrings p fieldName.
Proof.
  pose proof (tagName_isOk p fieldName) as Ht.
  rewrite Tags_markup. pose proof (asStrings_isOk p fieldName) as Hs.
  destruct (tagNameFromStructField fieldName p) as [t|w]; simpl in Ht.
  - destruct (reflect.asStrings _) as [tags|w]; simpl in Hs; rewrite <- Hs.
    + symmetry in Hs. rewrite <- (isExportedStrings_resolves _ _ Hs), <- Ht.
      reflexivity.
    + now rewrite andb_false_r.
  - destruct (isExportedStrings p fieldName) eqn:Hx.
    + rewrite <- (isExportedStrings_resolves _ _ Hx), <- Ht. reflexivity.
    + now rewrite andb_false_r.
Qed.

(** C1, amended.  For a non-nil pointer to a struct without embedded
    fields, exactly when each rendering call returns: [Input], [Textarea]
    and [File] return iff the field name is empty or the field exists and
    has a json tag; [Timestamp] iff the field is of a signed integer kind
    and has a json tag; [Richtext] and [Select] iff moreover the attribute
    map is not nil; [Checkbox] iff the attribute map is not nil, the field
    is exported and of type []string or an array of strings, and it has a
    json tag or the option map is empty; [Tags] iff the field is exported,
    of type []string or an array of strings, and has a json tag.  When one
    map is passed as the attributes and as the options, [Select] returns
    as before, and [Checkbox], whose loop then finds the entry class, iff
    the map is not nil and the field is such a field with a json tag.  In
    particular a field that exists and has a json tag makes [Input],
    [Textarea] and [File] return. *)
Theorem abort_conditions (rng : rangeOracle) (fieldName : string) (p : reflect.Struct)
  (attrs options : GoMap) (n : nat) :
  rangeOK rng ->
  let returns w := isOk (render w rng fieldName p attrs options n) in
  returns WInput = resolves p fieldName /\
  returns WTextarea = resolves p fieldName /\
  returns WFile = resolves p fieldName /\
  returns WTimestamp = isIntField p fieldName && hasJsonTag p fieldName /\
  returns WRichtext = negb (isNil attrs) && resolves p fieldName /\
  returns WSelect = negb (isNil attrs) && resolves p fieldName /\
  returns WCheckbox =
    negb (isNil attrs) && isExportedStrings p fieldName &&
    (bool_decide (entries options = ∅) || hasJsonTag p fieldName) /\
  returns WTags = hasJsonTag p fieldName && isExportedStrings p fieldName /\
  isOk (SelectShared rng fieldName p attrs n)
    = negb (isNil attrs) && resolves p fieldName /\
  isOk (CheckboxShared rng fieldName p attrs n)
    = negb (isNil attrs) && isExportedStrings p fieldName && hasJsonTag p fieldName /\
  (hasJsonTag p fieldName = true ->
   returns WInput = true /\ returns WTextarea = true /\ returns WFile = true).
Proof.
  intros Hok returns. subst returns. cbv beta.
  pose proof (tagName_isOk p fieldName) as Ht.
  assert (HI : isOk (render WInput rng fieldName p attrs options n) = resolves p fieldName).
  { simpl. rewrite Input_markup. now destruct (tagNameFromStructField fieldName p). }
  assert (HA : isOk (render WTextarea rng fieldName p attrs options n)
               = resolves p fieldName).
  { simpl. rewrite Textarea_markup. now destruct (tagNameFromStructField fieldName p). }
  assert (HF : isOk (render WFile rng fieldName p attrs options n) = resolves p fieldName).
  { simpl. rewrite File_markup. now destruct (tagNameFromStructField fieldName p). }
  split; [exact HI |]. split; [exact HA |]. split; [exact HF |].
  split.
  { simpl. rewrite Timestamp_markup.
    pose proof (ValueInt_isOk p fieldName) as Hi.
    destruct (reflect.ValueInt _) as [z|w]; simpl in Hi; rewrite <- Hi; [|reflexivity].
    symmetry in Hi. rewrite <- (isIntField_resolves _ _ Hi), <- Ht.
    now destruct (tagNameFromStructField fieldName p). }
  split.
  { simpl. rewrite Richtext_markup. destruct attrs as [g|]; [|reflexivity].
    cbv zeta. rewrite <- Ht. now destruct (tagNameFromStructField fieldName p). }
  split; [apply Select_returns |].
  split; [now apply Checkbox_returns |].
  split; [apply Tags_returns |].
  split; [apply Select_returns |].
  split.
  { unfold CheckboxShared. rewrite (Checkbox_returns _ _ _ _ _ _ Hok).
    destruct attrs as [g|]; [|reflexivity]. simpl afterStore. simpl entries.
    rewrite (bool_decide_eq_false_2 _ (insert_non_empty g "class" _)).
    reflexivity. }
  intros H. rewrite HI, HA, HF. unfold resolves. rewrite H, orb_true_r. tauto.
Qed.

Lemma abort_conditions_witness :
  isOk (Input listOrder "Title" post twoAttrs 0) = true /\
  isOk (Timestamp listOrder "Title" post twoAttrs 0) = false /\
  isOk (Tags "Both" pair None 0) = true.
Proof.
  pose proof (abort_conditions listOrder "Title" post twoAttrs None 0 listOrder_ok) as H.
  cbv zeta in H. destruct H as (HI & _ & _ & HT & _).
  pose proof (abort_conditions listOrder "Both" pair None None 0 listOrder_ok) as H.
  cbv zeta in H. destruct H as (_ & _ & _ & _ & _ & _ & _ & HG & _).
  simpl render in HI, HT, HG. rewrite HI, HT, HG. repeat split.
Defined.

(** ** What a call leaves behind *)

(** C4, as stated, fails: [Select] called with an empty attribute map
    leaves the entry class in it, and an [Input] rendered afterwards with
    the same map writes that entry. *)
Lemma select_stores_into_attrs :
  ~ leaves_attrs_unchanged /\
  attrsAfter (Select listOrder "Title" post (Some ∅) None 0)
    = Some (Some {[ "class" := "browser-default" ]}) /\
  outputOf (Input listOrder "Title" post (Some {[ "class" := "browser-default" ]}) 0)
    <> outputOf (Input listOrder "Title" post (Some ∅) 0).
Proof.
  split; [|split].
  - intros H.
    pose proof (Select_markup listOrder "Title" post (Some ∅) None 0) as E.
    change (tagNameFromStructField "Title" post) with (@Ok string "title") in E.
    cbv zeta iota beta in E.
    apply (H WSelect _ _ _ _ _ _ _ _ _ listOrder_ok) in E.
    apply (f_equal (fun m => mapIndex m "class")) in E.
    vm_compute in E. discriminate E.
  - vm_compute. reflexivity.
  - vm_compute. discriminate.
Qed.

(** C4, amended.  [Input], [Textarea], [Timestamp], [File] and [Tags]
    return with the attribute map as they received it.  [Richtext] returns
    with the entries class and id stored in it, [Select] and [Checkbox]
    with the entry class; every other entry is as before. *)
Theorem attrs_frame (w : widget) (rng : rangeOracle) (fieldName : string)
  (p : reflect.Struct) (attrs options : GoMap) (n : nat)
  (out : string) (attrs' : GoMap) (n' : nat) :
  render w rng fieldName p attrs options n = Ok (out, attrs', n') ->
  match w with
  | WRichtext =>
      attrs <> None /\
      attrs' = Some (<[ "id" := "richtext-" +:+ fieldName ]>
                       (<[ "class" := "richtext " +:+ fieldName ]> (entries attrs)))
  | WSelect =>
      attrs <> None /\
      attrs' = Some (<[ "class" := "browser-default" ]> (entries attrs))
  | WCheckbox =>
      attrs <> None /\
      attrs' = Some (<[ "class" := "input-field col s12" ]> (entries attrs))
  | WInput | WTextarea | WTimestamp | WFile | WTags => attrs' = attrs
  end /\
  forall k : string, k <> "class" -> k <> "id" -> mapIndex attrs' k = mapIndex attrs k.
Proof.
  intros H.
  assert (Hcase :
    match w with
    | WRichtext =>
        attrs <> None /\
        attrs' = Some (<[ "id" := "richtext-" +:+ fieldName ]>
                         (<[ "class" := "richtext " +:+ fieldName ]> (entries attrs)))
    | WSelect =>
        attrs <> None /\
        attrs' = Some (<[ "class" := "browser-default" ]> (entries attrs))
    | WCheckbox =>
        attrs <> None /\
        attrs' = Some (<[ "class" := "input-field col s12" ]> (entries attrs))
    | WInput | WTextarea | WTimestamp | WFile | WTags => attrs' = attrs
    end).
  { destruct w; simpl in H.
    - rewrite Input_markup in H.
      destruct (tagNameFromStructField fieldName p); congruence.
    - rewrite Textarea_markup in H.
      destruct (tagNameFromStructField fieldName p); congruence.
    - rewrite Timestamp_markup in H.
      destruct (reflect.ValueInt _); [|discriminate].
      destruct (tagNameFromStructField fieldName p); congruence.
    - rewrite File_markup in H.
      destruct (tagNameFromStructField fieldName p); congruence.
    - rewrite Richtext_markup in H. destruct attrs as [g|]; [|discriminate].
      cbv zeta in H. destruct (tagNameFromStructField fieldName p); [|discriminate].
      split; [discriminate | simpl; congruence].
    - rewrite Select_markup in H. destruct attrs as [g|]; [|discriminate].
      cbv zeta in H. destruct (tagNameFromStructField fieldName p); [|discriminate].
      split; [discriminate | simpl; congruence].
    - rewrite Checkbox_markup in H. destruct attrs as [g|]; [|discriminate].
      cbv zeta in H. destruct (reflect.asStrings _); [|discriminate].
      destruct (checkboxOptions _ _ _ _ _ _); [|discriminate].
      split; [discriminate | simpl; congruence].
    - rewrite Tags_markup in H.
      destruct (tagNameFromStructField fieldName p); [|discriminate].
      destruct (reflect.asStrings _); congruence. }
  split; [exact Hcase |].
  intros k Hc Hi.
  destruct w; try (rewrite Hcase; reflexivity);
    destruct Hcase as [_ ->]; unfold mapIndex; simpl;
    now rewrite ?lookup_insert_ne by congruence.
Qed.

Lemma attrs_frame_witness :
  mapIndex (Some (<[ "class" := "browser-default" ]> (entries twoAttrs))) "label"
  = mapIndex twoAttrs "label".
Proof.
  pose proof (Select_markup listOrder "Title" post twoAttrs None 0) as E.
  change (tagNameFromStructField "Title" post) with (@Ok string "title") in E.
  unfold twoAttrs in E. cbv zeta iota beta in E.
  apply (proj2 (attrs_frame WSelect _ _ _ _ _ _ _ _ _ E)); discriminate.
Defined.

(** ** Determinism *)

Lemma range_small (rng : rangeOracle) (n : nat) (g : gmap string string) :
  rangeOK rng -> size g <= 1 -> rng n g = map_to_list g.
Proof.
  intros Hok Hs. specialize (Hok n g).
  rewrite <- length_map_to_list in Hs.
  destruct (map_to_list g) as [|x [|y l]]; simpl in Hs; [| |lia].
  - symmetry in Hok. now apply Permutation_nil.
  - symmetry in Hok. now apply Permutation_length_1_inv.
Qed.

(** C5, as stated, fails: with two attributes, [Input] writes them in the
    order in which the map is visited, and two admissible orders give two
    different byte sequences; [Select] does so on every input, since its
    call to action has the two attributes disabled and selected. *)
Lemma output_depends_on_map_order :
  ~ deterministic WInput /\ ~ deterministic WSelect.
Proof.
  split; intros H.
  - specialize (H listOrder reverseOrder "Title" post twoAttrs None 0 0
                  listOrder_ok reverseOrder_ok).
    vm_compute in H. discriminate H.
  - specialize (H listOrder reverseOrder "Title" post (Some ∅) None 0 0
                  listOrder_ok reverseOrder_ok).
    vm_compute in H. discriminate H.
Qed.

(** C5, amended.  [File] and [Tags], which range over no map, are
    deterministic; [Input], [Textarea] and [Timestamp] are deterministic on
    an attribute map of at most one entry.  (With more entries, and in
    [Richtext], [Select] and [Checkbox], the order of the attributes
    written follows the iteration order of the maps.) *)
Theorem determinism_without_map_order :
  deterministic WFile /\ deterministic WTags /\
  forall (rng1 rng2 : rangeOracle) (fieldName : string) (p : reflect.Struct)
         (attrs options : GoMap) (n1 n2 : nat),
    rangeOK rng1 -> rangeOK rng2 ->
    size (entries attrs) <= 1 ->
    forall w : widget, w = WInput \/ w = WTextarea \/ w = WTimestamp ->
      outputOf (render w rng1 fieldName p attrs options n1)
      = outputOf (render w rng2 fieldName p attrs options n2).
Proof.
  split; [|split].
  - intros rng1 rng2 fieldName p attrs options n1 n2 _ _. simpl.
    rewrite !File_markup. now destruct (tagNameFromStructField fieldName p).
  - intros rng1 rng2 fieldName p attrs options n1 n2 _ _. simpl.
    rewrite !Tags_markup. destruct (tagNameFromStructField fieldName p); [|reflexivity].
    now destruct (reflect.asStrings _).
  - intros rng1 rng2 fieldName p attrs options n1 n2 H1 H2 Hs w Hw.
    pose proof (range_small rng1 n1 _ H1 Hs) as E1.
    pose proof (range_small rng2 n2 _ H2 Hs) as E2.
    destruct Hw as [-> | [-> | ->]]; simpl.
    + rewrite !Input_markup, E1, E2.
      now destruct (tagNameFromStructField fieldName p).
    + rewrite !Textarea_markup, E1, E2.
      now destruct (tagNameFromStructField fieldName p).
    + rewrite !Timestamp_markup, E1, E2.
      destruct (reflect.ValueInt _); [|reflexivity].
      now destruct (tagNameFromStructField fieldName p).
Qed.

Lemma determinism_without_map_order_witness :
  outputOf (render WInput listOrder "Title" post labelOnly None 0)
  = outputOf (render WInput reverseOrder "Title" post labelOnly None 7).
Proof.
  apply (proj2 (proj2 determinism_without_map_order)).
  - exact listOrder_ok.
  - exact reverseOrder_ok.
  - vm_compute. lia.
  - left. reflexivity.
Defined.

(** ** Current values *)

Lemma allChars_app (ok : ascii -> bool) (a b : string) :
  allChars ok (a +:+ b) = allChars ok a && allChars ok b.
Proof.
  induction a as [|c a IH]; [reflexivity |].
  rewrite sapp_cons. simpl. now rewrite IH, andb_assoc.
Qed.

Lemma escapeChar_safe (c : ascii) :
  allChars (fun x => negb (breaksMarkup x)) (escapeChar c) = true.
Proof.
  unfold escapeChar.
  destruct (Ascii.eqb c "&") eqn:E1; [reflexivity |].
  destruct (Ascii.eqb c "'") eqn:E2; [reflexivity |].
  destruct (Ascii.eqb c "<") eqn:E3; [reflexivity |].
  destruct (Ascii.eqb c ">") eqn:E4; [reflexivity |].
  destruct (Ascii.eqb c dquote) eqn:E5; [reflexivity |].
  simpl. unfold breaksMarkup. now rewrite E2, E3, E4, E5.
Qed.

Lemma EscapeString_safe (s : string) :
  allChars (fun x => negb (breaksMarkup x)) (EscapeString s) = true.
Proof.
  induction s as [|c s IH]; [reflexivity |].
  simpl. now rewrite allChars_app, escapeChar_safe, IH.
Qed.

Lemma escapeChar_plain (c : ascii) : isSpecial c = false -> escapeChar c = String c "".
Proof.
  unfold isSpecial, breaksMarkup, escapeChar. intros H.
  apply orb_false_elim in H as [E1 H].
  apply orb_false_elim in H as [H E2].
  apply orb_false_elim in H as [H E5].
  apply orb_false_elim in H as [E3 E4].
  now rewrite E1, E2, E3, E4, E5.
Qed.

Lemma EscapeString_plain (s : string) :
  allChars (fun x => negb (isSpecial x)) s = true -> EscapeString s = s.
Proof.
  induction s as [|c s IH]; [reflexivity |].
  simpl. intros H. apply andb_prop in H as [Hc Hs].
  apply negb_true_iff in Hc. rewrite (escapeChar_plain _ Hc), (IH Hs). reflexivity.
Qed.

Lemma string_of_uint_plain (d : Decimal.uint) :
  allChars (fun x => negb (isSpecial x)) (NilEmpty.string_of_uint d) = true.
Proof. induction d; simpl; [reflexivity | assumption ..]. Qed.

Lemma EscapeString_decimal (z : Z) : EscapeString (decimal z) = decimal z.
Proof.
  apply EscapeString_plain. unfold decimal.
  destruct (Z.to_int z) as [d|d]; simpl; apply string_of_uint_plain.
Qed.

Lemma ValueString_of_string (p : reflect.Struct) (fieldName s : string)
  (f : reflect.StructField) :
  reflect.FieldByName p fieldName = Some f ->
  reflect.Val f = reflect.OfString s ->
  reflect.ValueString (valueFromStructField fieldName p) = s.
Proof.
  intros Hf Hs. unfold valueFromStructField, reflect.ValueFieldByName.
  rewrite Hf. unfold reflect.ValueString. simpl. now rewrite Hs.
Qed.

(** C6, as stated, fails.  [Timestamp] on the string-valued field Title
    aborts in [Value.Int] and returns no bytes at all; [Input] on the same
    field, whose value is Tom & Jerry <3, writes the escaped form and not
    the value itself. *)
Lemma string_value_not_written_as_is :
  ~ value_attr_is_field_value WTimestamp /\ ~ value_attr_is_field_value WInput.
Proof.
  split; intros H.
  - destruct (H listOrder "Title" post twoAttrs None 0 titleField
                "Tom & Jerry <3" "title" listOrder_ok eq_refl eq_refl eq_refl)
      as (out & Hout & _).
    vm_compute in Hout. discriminate Hout.
  - destruct (H listOrder "Title" post twoAttrs None 0 titleField
                "Tom & Jerry <3" "title" listOrder_ok eq_refl eq_refl eq_refl)
      as (out & Hout & Hc).
    apply contains_containsb in Hc.
    vm_compute in Hout. injection Hout as <-.
    vm_compute in Hc. discriminate Hc.
Qed.

(** C6, amended.  For a string-valued field with a json tag, the value the
    widget shows is the value the field has when the call is made: [Input]
    writes its escaped form as the value attribute, [Textarea] as the
    content of the element, [Richtext] as the value of its hidden input,
    and [File] writes the value itself as the value of its hidden input.
    [Timestamp] reads the field as an integer and aborts on such a field. *)
Theorem string_value_is_shown (p : reflect.Struct) (fieldName s t : string)
  (f : reflect.StructField) :
  reflect.FieldByName p fieldName = Some f ->
  reflect.Val f = reflect.OfString s ->
  reflect.Lookup (reflect.Tag f) "json" = Some t ->
  forall (rng : rangeOracle) (attrs : GoMap) (n : nat),
    let label := mapIndex attrs "label" in
    let kvs := rng n (entries attrs) in
    Input rng fieldName p attrs n
      = Ok (inputBytes label (EscapeString s) kvs t, attrs, S n) /\
    Textarea rng fieldName p attrs n
      = Ok (textareaBytes label (EscapeString s) kvs t, attrs, S n) /\
    File fieldName p attrs n = Ok (fileBytes label s t, attrs, n) /\
    Timestamp rng fieldName p attrs n = Panic (ReflectKind "Int") /\
    forall g : gmap string string,
      let gr := <[ "id" := "richtext-" +:+ fieldName ]>
                  (<[ "class" := "richtext " +:+ fieldName ]> g) in
      Richtext rng fieldName p (Some g) n
        = Ok (richtextBytes (mapIndex (Some g) "label") fieldName (EscapeString s)
                (rng n gr) t (mapIndex (Some gr) "placeholder"), Some gr, S n).
Proof.
  intros Hf Hs Ht rng attrs n label kvs.
  pose proof (tagName_of_field _ _ _ _ Hf Ht) as Htag.
  pose proof (ValueString_of_string _ _ _ _ Hf Hs) as Hv.
  repeat split.
  - now rewrite Input_markup, Htag, Hv.
  - now rewrite Textarea_markup, Htag, Hv.
  - now rewrite File_markup, Htag, Hv.
  - rewrite Timestamp_markup.
    unfold valueFromStructField, reflect.ValueFieldByName, reflect.ValueInt.
    rewrite Hf. simpl. now rewrite Hs.
  - intros g gr. now rewrite Richtext_markup, Htag, Hv.
Qed.

Lemma string_value_is_shown_witness :
  File "Title" post twoAttrs 0
  = Ok (fileBytes (mapIndex twoAttrs "label") "Tom & Jerry <3" "title", twoAttrs, 0).
Proof.
  exact (proj1 (proj2 (proj2
    (string_value_is_shown post "Title" "Tom & Jerry <3" "title" titleField
       eq_refl eq_refl eq_refl listOrder twoAttrs 0)))).
Defined.

(** ** Escaping *)

(** C8. [Input], [Textarea] and [Richtext] embed the value of the field
    through [html.EscapeString]: the bytes hold the escaped form, in which
    the characters <, >, double quote and single quote do not occur, each
    of them and & being replaced by its entity. *)
Theorem field_value_is_escaped (p : reflect.Struct) (fieldName t : string) :
  tagNameFromStructField fieldName p = Ok t ->
  forall (rng : rangeOracle) (attrs : GoMap) (n : nat),
    let v := reflect.ValueString (valueFromStructField fieldName p) in
    let label := mapIndex attrs "label" in
    let kvs := rng n (entries attrs) in
    Input rng fieldName p attrs n
      = Ok (inputBytes label (EscapeString v) kvs t, attrs, S n) /\
    Textarea rng fieldName p attrs n
      = Ok (textareaBytes label (EscapeString v) kvs t, attrs, S n) /\
    (forall g : gmap string string,
       let gr := <[ "id" := "richtext-" +:+ fieldName ]>
                   (<[ "class" := "richtext " +:+ fieldName ]> g) in
       Richtext rng fieldName p (Some g) n
         = Ok (richtextBytes (mapIndex (Some g) "label") fieldName (EscapeString v)
                 (rng n gr) t (mapIndex (Some gr) "placeholder"), Some gr, S n)) /\
    allChars (fun c => negb (breaksMarkup c)) (EscapeString v) = true /\
    (forall rest : string,
       EscapeString (String "<" rest) = "&lt;" +:+ EscapeString rest /\
       EscapeString (String ">" rest) = "&gt;" +:+ EscapeString rest /\
       EscapeString (String "&" rest) = "&amp;" +:+ EscapeString rest /\
       EscapeString (String dquote rest) = "&#34;" +:+ EscapeString rest /\
       EscapeString (String "'" rest) = "&#39;" +:+ EscapeString rest).
Proof.
  intros Htag rng attrs n v label kvs. repeat split.
  - now rewrite Input_markup, Htag.
  - now rewrite Textarea_markup, Htag.
  - intros g gr. now rewrite Richtext_markup, Htag.
  - apply EscapeString_safe.
Qed.

Lemma field_value_is_escaped_witness :
  outputOf (Textarea listOrder "Title" post None 0)
  = Ok (textareaBytes "" "Tom &amp; Jerry &lt;3" [] "title").
Proof.
  pose proof (field_value_is_escaped post "Title" "title" eq_refl listOrder None 0)
    as (_ & H & _).
  rewrite H. reflexivity.
Defined.

(** ** Timestamps *)

(** C9, as stated, fails on the unsigned integer kinds: the field Views,
    a uint64 holding 5, has a json tag, and [Timestamp] aborts on it in
    [Value.Int]. *)
Lemma timestamp_aborts_on_unsigned :
  ~ timestamp_shows_integer /\
  Timestamp listOrder "Views" post None 0 = Panic (ReflectKind "Int").
Proof.
  split; [|reflexivity].
  intros H.
  specialize (H listOrder "Views" post None 0 _ "views" 5%Z listOrder_ok
                eq_refl eq_refl eq_refl).
  vm_compute in H. discriminate H.
Qed.

(** C9, amended.  On a field of a signed integer kind holding [z],
    [Timestamp] writes an empty value attribute when [z] is 0 and the
    decimal form of [z] otherwise (it returns when the field has a json
    tag, and aborts for the missing tag otherwise). *)
Theorem timestamp_value (p : reflect.Struct) (fieldName ty : string) (z : Z)
  (f : reflect.StructField) :
  reflect.FieldByName p fieldName = Some f ->
  reflect.Val f = reflect.OfInt ty z ->
  forall (rng : rangeOracle) (attrs : GoMap) (n : nat),
    Timestamp rng fieldName p attrs n =
    match reflect.Lookup (reflect.Tag f) "json" with
    | Some t =>
        Ok (inputBytes (mapIndex attrs "label") (if Z.eqb z 0 then "" else decimal z)
              (rng n (entries attrs)) t, attrs, S n)
    | None => Panic (NoJsonTag fieldName)
    end.
Proof.
  intros Hf Hz rng attrs n. rewrite Timestamp_markup.
  unfold valueFromStructField, reflect.ValueFieldByName, reflect.ValueInt.
  rewrite Hf. simpl. rewrite Hz.
  unfold tagNameFromStructField.
  rewrite (field_name_nonempty _ _ _ Hf), Hf.
  destruct (reflect.Lookup (reflect.Tag f) "json") as [t|]; [|reflexivity].
  destruct (Z.eqb z 0); [reflexivity |].
  now rewrite EscapeString_decimal.
Qed.

Lemma timestamp_value_witness :
  outputOf (Timestamp listOrder "Timestamp" post None 0)
  = Ok (inputBytes "" "1479" [] "timestamp").
Proof.
  rewrite (timestamp_value post "Timestamp" "int64" 1479 _ eq_refl eq_refl).
  reflexivity.
Defined.

(** ** Select *)

Lemma range_singleton (rng : rangeOracle) (n : nat) (k v : string) :
  rangeOK rng -> rng n {[ k := v ]} = [(k, v)].
Proof.
  intros Hok. rewrite (range_small rng n _ Hok).
  - apply map_to_list_singleton.
  - now rewrite map_size_singleton.
Qed.

Lemma range_pair (rng : rangeOracle) (n : nat) (k1 v1 k2 v2 : string) :
  rangeOK rng -> k1 <> k2 ->
  rng n (<[ k1 := v1 ]> {[ k2 := v2 ]}) = [(k1, v1); (k2, v2)] \/
  rng n (<[ k1 := v1 ]> {[ k2 := v2 ]}) = [(k2, v2); (k1, v1)].
Proof.
  intros Hok Hne. specialize (Hok n (<[ k1 := v1 ]> {[ k2 := v2 ]})).
  rewrite map_to_list_insert in Hok by now apply lookup_singleton_ne.
  rewrite map_to_list_singleton in Hok. symmetry in Hok.
  now apply Permutation_length_2_inv in Hok.
Qed.

(** C7. [Select] writes, inside the select element, the call to action
    (disabled), the option None with the empty value, and one option per
    entry of [options], in the order the map is visited.  The option of an
    entry carries the attribute selected, with value true, exactly when
    the key of the entry equals the string value of the field. *)
Theorem select_marks_current_value (rng : rangeOracle) (fieldName : string)
  (p : reflect.Struct) (g : gmap string string) (options : GoMap) (n : nat)
  (t : string) :
  rangeOK rng ->
  tagNameFromStructField fieldName p = Ok t ->
  let fieldVal := reflect.ValueString (valueFromStructField fieldName p) in
  let opts := rng n (entries options) in
  let gs := <[ "class" := "browser-default" ]> g in
  Select rng fieldName p (Some g) options n =
    Ok ("<div class=" +:+ quoted "input-field col s6" +:+ ">"
          +:+ "<select " +:+ attrsMarkup (rng (S n) gs) +:+ nameAttr t +:+ " >"
          +:+ childrenMarkup rng elementMarkup (S (S n))
                (cta :: reset :: map (optionElement fieldVal) opts)
          +:+ "</select>" +:+ activeLabel (mapIndex (Some gs) "label") +:+ "</div>",
        Some gs, S (S n) + S (S (length opts))) /\
  opts ≡ₚ map_to_list (entries options) /\
  (entries (Attrs cta) = <[ "disabled" := "true" ]> {[ "selected" := "true" ]} /\
   data cta = "Select an option..." /\
   entries (Attrs reset) = {[ "value" := "" ]} /\ data reset = "None") /\
  forall (k v : string),
    let opt := optionElement fieldVal (k, v) in
    TagName opt = "option" /\ data opt = v /\
    entries (Attrs opt) !! "value" = Some k /\
    (entries (Attrs opt) !! "selected" = Some "true" <-> k = fieldVal) /\
    (entries (Attrs opt) !! "selected" = None <-> k <> fieldVal) /\
    forall j : nat,
      let written := attrsMarkup (rng j (entries (Attrs opt))) in
      (k <> fieldVal -> written = "value=" +:+ quoted k +:+ " ") /\
      (k = fieldVal ->
       written = "selected=" +:+ quoted "true" +:+ " value=" +:+ quoted k +:+ " " \/
       written = "value=" +:+ quoted k +:+ " selected=" +:+ quoted "true" +:+ " ").
Proof.
  intros Hok Htag fieldVal opts gs.
  split; [now rewrite Select_markup, Htag |].
  split; [apply Hok |].
  split; [repeat split |].
  intros k v opt. subst opt. unfold optionElement. cbn [TagName data Attrs entries fst snd].
  destruct (String.eqb_spec k fieldVal) as [E|E].
  - assert (Hsel : (<[ "selected" := "true" ]> {[ "value" := k ]} : gmap string string)
                     !! "selected" = Some "true") by apply lookup_insert_eq.
    split; [reflexivity |]. split; [reflexivity |].
    split; [rewrite lookup_insert_ne by done; apply lookup_singleton_eq |].
    split; [tauto |].
    split; [rewrite Hsel; split; [discriminate | tauto] |].
    intros j. cbv zeta. split; [tauto |]. intros _.
    destruct (range_pair rng j "selected" "true" "value" k Hok) as [R|R];
      [done | | ]; rewrite R; [left | right];
      unfold attrsMarkup, attrMarkup; cbn [fst snd]; now rewrite !sapp_assoc.
  - assert (Hsel : ({[ "value" := k ]} : gmap string string) !! "selected" = None)
      by now apply lookup_singleton_ne.
    split; [reflexivity |]. split; [reflexivity |].
    split; [apply lookup_singleton_eq |].
    split; [rewrite Hsel; split; [discriminate | tauto] |].
    split; [tauto |].
    intros j. cbv zeta. split; [|tauto]. intros _.
    rewrite (range_singleton rng j _ _ Hok).
    unfold attrsMarkup, attrMarkup. cbn [fst snd]. now rewrite !sapp_assoc.
Qed.

Lemma select_marks_current_value_witness :
  entries (Attrs (optionElement "Tom & Jerry <3" ("Tom & Jerry <3", "Cartoon")))
    !! "selected" = Some "true" /\
  entries (Attrs (optionElement "Tom & Jerry <3" ("plain", "Body")))
    !! "selected" = None.
Proof.
  pose proof (select_marks_current_value listOrder "Title" post ∅ None 0 "title"
                listOrder_ok eq_refl) as (_ & _ & _ & H).
  split.
  - apply (H "Tom & Jerry <3" "Cartoon"). reflexivity.
  - apply (H "plain" "Body"). discriminate.
Defined.

(** ** The empty field name *)

(** C10, as stated, fails in its last part: the bytes [Checkbox] returns
    for the field Category with one option hold the name category.0 of
    the input and no attribute name with an empty value. *)
Lemma checkbox_wrapper_has_no_name :
  ~ checkbox_writes_empty_name /\
  exists out,
    outputOf (Checkbox listOrder "Category" post (Some ∅) (Some {[ "news" := "News" ]}) 0)
      = Ok out /\
    containsb (nameAttr "category.0") out = true /\
    containsb ("name=" +:+ quoted "") out = false.
Proof.
  destruct (Checkbox listOrder "Category" post (Some ∅) (Some {[ "news" := "News" ]}) 0)
    as [[[out a] k]|w] eqn:E; [|vm_compute in E; discriminate E].
  vm_compute in E. injection E as <- _ _.
  split.
  - intros H.
    pose proof (H listOrder "Category" post (Some ∅) (Some {[ "news" := "News" ]}) 0
                  _ _ _ listOrder_ok eq_refl) as H'.
    apply contains_containsb in H'. vm_compute in H'. discriminate H'.
  - eexists. split; [reflexivity |]. split; vm_compute; reflexivity.
Qed.

(** C10, amended.  For the empty field name [tagNameFromStructField]
    returns the empty string, whatever the struct, and [newElement] builds
    an element with an empty name.  A call that renders such an element
    through [domElementSelfClose], as [Input] with an empty field name,
    writes the attribute name with an empty value; [Checkbox] builds its
    wrapper this way but [domElementWithChildrenCheckbox] writes the
    wrapper with its attributes only, without a name. *)
Theorem empty_field_name (p : reflect.Struct) :
  tagNameFromStructField "" p = Ok "" /\
  (forall (tagName label : string) (attrs : GoMap),
     newElement tagName label "" p attrs =
     Ok {| TagName := tagName; Attrs := attrs; Name := ""; label := label;
           data := "<invalid Value>"; viewBuf := "" |}) /\
  (forall (rng : rangeOracle) (attrs : GoMap) (n : nat),
     Input rng "" p attrs n =
     Ok (inputBytes (mapIndex attrs "label") "&lt;invalid Value&gt;"
           (rng n (entries attrs)) "", attrs, S n)) /\
  (forall (rng : rangeOracle) (fieldName : string) (g : gmap string string)
          (options : GoMap) (n : nat),
     let g' := <[ "class" := "input-field col s12" ]> g in
     Checkbox rng fieldName p (Some g) options n =
     match reflect.asStrings (valueFromStructField fieldName p) with
     | Ok checked =>
         match checkboxOptions fieldName p checked (rng n (entries options)) 0 [] with
         | Ok opts =>
             Ok ("<div " +:+ attrsMarkup (rng (S n) g') +:+ " >"
                   +:+ activeLabel (mapIndex (Some g') "label")
                   +:+ childrenMarkup rng checkboxMarkup (S (S n)) opts
                   +:+ "</div><div class=" +:+ quoted "clear padding" +:+ ">&nbsp;</div>",
                 Some g', S (S n) + length opts)
         | Panic w => Panic w
         end
     | Panic w => Panic w
     end).
Proof.
  split; [reflexivity |]. split; [reflexivity |]. split.
  - intros rng attrs n. rewrite Input_markup. reflexivity.
  - intros rng fieldName g options n g'. rewrite Checkbox_markup. reflexivity.
Qed.

(** ** Further properties: labels and ids *)

Lemma Split_nonempty (s : string) (sep : ascii) : Split s sep <> [].
Proof.
  destruct s as [|c s]; simpl; [discriminate |].
  destruct (Ascii.eqb c sep); [discriminate |].
  destruct (Split s sep); discriminate.
Qed.

Lemma Join_cons_char (c : ascii) (h : string) (t : list string) (sep : string) :
  Join (String c h :: t) sep = String c (Join (h :: t) sep).
Proof. destruct t; reflexivity. Qed.

Lemma dashed_cons (c : ascii) (l : string) :
  dashed (String c l) = String (dashChar c) (dashed l).
Proof.
  unfold dashed, dashChar. simpl Split.
  pose proof (Split_nonempty l " ") as Hne.
  destruct (Ascii.eqb c " ") eqn:E.
  - destruct (Split l " ") as [|h t]; [congruence |]. reflexivity.
  - destruct (Split l " ") as [|h t]; [congruence |]. apply Join_cons_char.
Qed.

Lemma mapChars_length (f : ascii -> ascii) (s : string) :
  String.length (mapChars f s) = String.length s.
Proof. induction s as [|c s IH]; simpl; [reflexivity | now rewrite IH]. Qed.

(** X1. The id that [Checkbox] gives an input, and the target of every
    label written by [domElementSelfClose], [domElement] and
    [domElementCheckbox], is the label with each space replaced by a
    dash: it has the length of the label, holds no space, and leaves
    every other character where it was. *)
Theorem dashed_replaces_spaces (l : string) :
  dashed l = mapChars dashChar l /\
  String.length (dashed l) = String.length l /\
  allChars (fun c => negb (Ascii.eqb c " ")) (dashed l) = true.
Proof.
  assert (H : dashed l = mapChars dashChar l).
  { induction l as [|c l IH]; [reflexivity |]. rewrite dashed_cons, IH. reflexivity. }
  split; [exact H |]. rewrite H. split; [apply mapChars_length |].
  clear H. induction l as [|c l IH]; [reflexivity |].
  simpl. rewrite IH, andb_true_r. unfold dashChar.
  destruct (Ascii.eqb c " ") eqn:E; [reflexivity | now rewrite E].
Qed.

(** ** Further properties: the inputs of Checkbox *)

Lemma markChecked_fold (k : string) (checked : list string) (m : gmap string string) :
  foldl (markChecked k) m checked =
  if decide (k ∈ checked) then <[ "checked" := "checked" ]> m else m.
Proof.
  revert m. induction checked as [|x checked IH]; intros m; simpl.
  - destruct (decide (k ∈ [])) as [H|_]; [|reflexivity]. now apply elem_of_nil in H.
  - rewrite IH. unfold markChecked.
    destruct (String.eqb_spec k x) as [->|Hne].
    + destruct (decide (x ∈ x :: checked)) as [_|H]; [|exfalso; apply H; left].
      destruct (decide (x ∈ checked)); [apply insert_insert_eq | reflexivity].
    + destruct (decide (k ∈ checked)) as [H|H];
        destruct (decide (k ∈ x :: checked)) as [H'|H']; try reflexivity.
      * exfalso. apply H'. now right.
      * exfalso. apply elem_of_cons in H' as [?|?]; congruence.
Qed.

Lemma checkboxOptions_inputs (fieldName : string) (p : reflect.Struct)
  (checked : list string) (kvs : list (string * string)) (opts : list element) :
  checkboxOptions fieldName p checked kvs 0 [] = Ok opts ->
  exists t, opts = imap (fun j kv => checkboxInput t checked (Z.of_nat j) kv) kvs.
Proof.
  intros H. destruct (tagNameFromStructField fieldName p) as [t|w] eqn:E.
  - exists t. rewrite (checkboxOptions_ok _ _ _ _ _ _ _ E) in H.
    injection H as <-. simpl. now rewrite checkboxInputs_imap.
  - exists "". rewrite (checkboxOptions_panic _ _ _ _ _ _ _ E) in H.
    destruct kvs; [|discriminate]. now injection H as <-.
Qed.

(** X2. Every input [Checkbox] builds for an option with key [k] and
    text [v] has the type checkbox, the value [k], the text [v] as its
    label and the dashed text as its id, which is the target the label is
    written with; it carries the attribute checked exactly when [k] is
    among the values the field holds, and no attribute besides these. *)
Theorem checkbox_input_attributes (fieldName : string) (p : reflect.Struct)
  (checked : list string) (kvs : list (string * string)) (opts : list element) :
  checkboxOptions fieldName p checked kvs 0 [] = Ok opts ->
  length opts = length kvs /\
  forall (j : nat) (k v : string),
    kvs !! j = Some (k, v) ->
    exists e, opts !! j = Some e /\
      TagName e = "input" /\ label e = v /\
      entries (Attrs e) !! "type" = Some "checkbox" /\
      entries (Attrs e) !! "value" = Some k /\
      entries (Attrs e) !! "id" = Some (dashed (label e)) /\
      (entries (Attrs e) !! "checked" = Some "checked" <-> k ∈ checked) /\
      (entries (Attrs e) !! "checked" = None <-> k ∉ checked) /\
      forall a : string,
        is_Some (entries (Attrs e) !! a) ->
        a = "type" \/ a = "value" \/ a = "id" \/ a = "checked".
Proof.
  intros H. destruct (checkboxOptions_inputs _ _ _ _ _ H) as [t ->].
  split; [apply length_imap |].
  intros j k v Hj. eexists. split; [rewrite list_lookup_imap, Hj; reflexivity |].
  unfold checkboxInput. cbn [TagName label Attrs entries fst snd].
  rewrite markChecked_fold.
  split; [reflexivity |]. split; [reflexivity |].
  destruct (decide (k ∈ checked)) as [Hin|Hin].
  - split; [now rewrite !lookup_insert_ne by done; rewrite lookup_insert_eq |].
    split; [rewrite !lookup_insert_ne by done; apply lookup_insert_eq |].
    split; [rewrite !lookup_insert_ne by done; apply lookup_singleton_eq |].
    rewrite lookup_insert_eq.
    split; [tauto |]. split; [split; [discriminate | tauto] |].
    intros a [x Ha]. repeat (apply lookup_insert_Some in Ha as [[<- _]|[_ Ha]]; [tauto |]).
    apply lookup_singleton_Some in Ha as [<- _]. tauto.
  - split; [apply lookup_insert_eq |].
    split; [rewrite lookup_insert_ne by done; apply lookup_insert_eq |].
    split; [rewrite !lookup_insert_ne by done; apply lookup_singleton_eq |].
    assert (Hn : (<[ "type" := "checkbox" ]> (<[ "value" := k ]> {[ "id" := dashed v ]})
                   : gmap string string) !! "checked" = None).
    { rewrite !lookup_insert_ne by done. now apply lookup_singleton_ne. }
    rewrite Hn.
    split; [split; [discriminate | tauto] |]. split; [tauto |].
    intros a [x Ha]. repeat (apply lookup_insert_Some in Ha as [[<- _]|[_ Ha]]; [tauto |]).
    apply lookup_singleton_Some in Ha as [<- _]. tauto.
Qed.

Lemma checkbox_input_attributes_witness :
  length ([] ++ checkboxInputs "category" ["news"; "go"] [("news", "News")] 0)
  = length [("news", "News")].
Proof.
  exact (proj1 (checkbox_input_attributes "Category" post ["news"; "go"]
                  [("news", "News")] _
                  (checkboxOptions_ok "Category" "category" post _ _ 0 [] eq_refl))).
Defined.

(** ** Further properties: distinct names *)

Lemma decimal_inj (a b : Z) : decimal a = decimal b -> a = b.
Proof.
  unfold decimal. intros H.
  apply (f_equal NilEmpty.int_of_string) in H.
  rewrite !NilEmpty.isi in H. injection H as H.
  apply (f_equal Z.of_int) in H. now rewrite !DecimalZ.of_to in H.
Qed.

Lemma indexed_name_inj (t : string) (a b : Z) :
  t +:+ "." +:+ decimal a = t +:+ "." +:+ decimal b -> a = b.
Proof.
  intros H. apply String.app_inj in H. apply (String.app_inj ".") in H.
  now apply decimal_inj.
Qed.

(** X3. The names of a multi-valued field do not collide: under one
    field name, [tagNameFromStructFieldMulti] returns different names at
    different indices, so the inputs [Checkbox] builds for its options
    have pairwise distinct names. *)
Theorem multi_value_names_distinct (fieldName : string) (p : reflect.Struct) :
  (forall (i j : Z) (a : string),
     tagNameFromStructFieldMulti fieldName i p = Ok a ->
     tagNameFromStructFieldMulti fieldName j p = Ok a -> i = j) /\
  (forall (checked : list string) (kvs : list (string * string)) (opts : list element),
     checkboxOptions fieldName p checked kvs 0 [] = Ok opts ->
     NoDup (map Name opts)).
Proof.
  split.
  - intros i j a Hi Hj. unfold tagNameFromStructFieldMulti, rbind in *.
    destruct (tagNameFromStructField fieldName p) as [t|w]; [|discriminate].
    injection Hi as <-. injection Hj as Hj. symmetry in Hj.
    now apply indexed_name_inj in Hj.
  - intros checked kvs opts H.
    destruct (checkboxOptions_inputs _ _ _ _ _ H) as [t ->].
    apply NoDup_alt. intros a b x Ha Hb.
    rewrite list_lookup_fmap, list_lookup_imap in Ha, Hb.
    destruct (kvs !! a) as [ka|]; [|discriminate].
    destruct (kvs !! b) as [kb|]; [|discriminate].
    simpl in Ha, Hb. injection Ha as Ha. injection Hb as Hb.
    rewrite <- Hb in Ha. apply indexed_name_inj in Ha. lia.
Qed.

Lemma multi_value_names_distinct_witness :
  NoDup (map Name ([] ++ checkboxInputs "category" [] [("a", "A"); ("b", "B")] 0)).
Proof.
  exact (proj2 (multi_value_names_distinct "Category" post) [] [("a", "A"); ("b", "B")] _
           (checkboxOptions_ok "Category" "category" post _ _ 0 [] eq_refl)).
Defined.

(** ** Further properties: the options of Select *)

Lemma count_key (m : gmap string string) (fv : string) :
  length (filter (fun kv : string * string => kv.1 = fv) (map_to_list m)) =
  if decide (is_Some (m !! fv)) then 1 else 0.
Proof.
  induction m as [|i x m Hi IH] using map_ind.
  - rewrite map_to_list_empty. simpl.
    destruct (decide (is_Some ((∅ : gmap string string) !! fv))) as [[? H]|_];
      [now rewrite lookup_empty in H | reflexivity].
  - rewrite map_to_list_insert by exact Hi. rewrite filter_cons. simpl.
    destruct (decide (i = fv)) as [->|Hne].
    + simpl. rewrite IH.
      destruct (decide (is_Some (m !! fv))) as [[? H]|_]; [congruence |].
      destruct (decide (is_Some (<[fv:=x]> m !! fv))) as [_|H]; [reflexivity |].
      exfalso. apply H. rewrite lookup_insert_eq. eauto.
    + rewrite IH. rewrite lookup_insert_ne by exact Hne. reflexivity.
Qed.

Lemma isSelected_option (fv : string) (kv : string * string) :
  isSelected (optionElement fv kv) = bool_decide (kv.1 = fv).
Proof.
  unfold isSelected, optionElement. cbn [Attrs entries].
  destruct (String.eqb_spec kv.1 fv) as [E|E].
  - rewrite lookup_insert_eq. rewrite (bool_decide_eq_true_2 (kv.1 = fv) E).
    apply bool_decide_eq_true. eauto.
  - rewrite lookup_singleton_ne by done. rewrite (bool_decide_eq_false_2 (kv.1 = fv) E).
    apply bool_decide_eq_false. intros [? ?]. discriminate.
Qed.

Lemma selected_options (fv : string) (kvs : list (string * string)) :
  length (filter (fun e => isSelected e = true) (map (optionElement fv) kvs)) =
  length (filter (fun kv : string * string => kv.1 = fv) kvs).
Proof.
  induction kvs as [|kv kvs IH]; [reflexivity |].
  simpl map. rewrite !filter_cons, isSelected_option.
  destruct (decide (kv.1 = fv)) as [E|E].
  - rewrite (bool_decide_eq_true_2 _ E). simpl. now rewrite IH.
  - rewrite (bool_decide_eq_false_2 _ E). simpl. exact IH.
Qed.

(** X4. The options [Select] builds are the call to action, the reset
    and one option per entry of [options].  The call to action is always
    marked selected; of the entries, the one whose key is the string value
    of the field is marked selected and no other, so two options are
    marked when that value is a key of [options] and one when it is not. *)
Theorem select_number_selected (rng : rangeOracle) (fieldName : string)
  (p : reflect.Struct) (options : GoMap) (n : nat) :
  rangeOK rng ->
  let fieldVal := reflect.ValueString (valueFromStructField fieldName p) in
  let opts := foldl (selectOption fieldVal) [cta; reset] (rng n (entries options)) in
  length opts = 2 + size (entries options) /\
  length (filter (fun e => isSelected e = true) opts) =
  if decide (is_Some (entries options !! fieldVal)) then 2 else 1.
Proof.
  intros Hok fieldVal opts. subst opts. rewrite selectOptions_map.
  pose proof (Hok n (entries options)) as Hp.
  split.
  - rewrite length_app, length_map, Hp, length_map_to_list. reflexivity.
  - rewrite filter_app, length_app, selected_options, Hp, count_key.
    destruct (decide (is_Some (entries options !! fieldVal))); reflexivity.
Qed.

Lemma select_number_selected_witness :
  length (filter (fun e => isSelected e = true)
            (foldl (selectOption "Tom & Jerry <3") [cta; reset]
               (listOrder 0 (entries (Some {[ "Tom & Jerry <3" := "Cartoon" ]})))))
  = 2.
Proof.
  exact (proj2 (select_number_selected listOrder "Title" post
                  (Some {[ "Tom & Jerry <3" := "Cartoon" ]}) 0 listOrder_ok)).
Defined.

(** ** Further properties: what File and Tags read of the attributes *)

(** X5. [File] and [Tags] read nothing of the attribute map but the
    entry label: two attribute maps with the same label give the same
    bytes, or the same panic. *)
Theorem file_and_tags_read_only_the_label (fieldName : string) (p : reflect.Struct)
  (attrs1 attrs2 : GoMap) (n1 n2 : nat) :
  mapIndex attrs1 "label" = mapIndex attrs2 "label" ->
  outputOf (File fieldName p attrs1 n1) = outputOf (File fieldName p attrs2 n2) /\
  outputOf (Tags fieldName p attrs1 n1) = outputOf (Tags fieldName p attrs2 n2).
Proof.
  intros H. split.
  - rewrite !File_markup, H. now destruct (tagNameFromStructField fieldName p).
  - rewrite !Tags_markup, H. destruct (tagNameFromStructField fieldName p); [|reflexivity].
    now destruct (reflect.asStrings _).
Qed.

Lemma file_and_tags_read_only_the_label_witness :
  outputOf (File "Title" post twoAttrs 0) = outputOf (File "Title" post labelOnly 3).
Proof.
  exact (proj1 (file_and_tags_read_only_the_label "Title" post twoAttrs labelOnly 0 3
                  eq_refl)).
Defined.

(** ** Further properties: the class the caller supplied *)

(** X6. [Select], [Checkbox] and [Richtext] replace the class of the
    attribute map, and [Richtext] its id: under one and the same iteration
    order, the call returns the same bytes and leaves the same map
    whatever class and id the caller supplied.  The map [Select] leaves
    is a fixed point: a second [Select] on it, under any iteration order,
    leaves it as it is, and under the iteration order of the first call
    returns the bytes of the first call. *)
Theorem caller_class_is_replaced (rng : rangeOracle) (fieldName : string)
  (p : reflect.Struct) (g : gmap string string) (options : GoMap) (n : nat)
  (c i : string) :
  Select rng fieldName p (Some (<[ "class" := c ]> g)) options n
    = Select rng fieldName p (Some g) options n /\
  Checkbox rng fieldName p (Some (<[ "class" := c ]> g)) options n
    = Checkbox rng fieldName p (Some g) options n /\
  Richtext rng fieldName p (Some (<[ "class" := c ]> (<[ "id" := i ]> g))) n
    = Richtext rng fieldName p (Some g) n /\
  forall (out : string) (attrs' : GoMap) (n' : nat),
    Select rng fieldName p (Some g) options n = Ok (out, attrs', n') ->
    Select rng fieldName p attrs' options n = Ok (out, attrs', n') /\
    forall (rng2 : rangeOracle) (n2 : nat),
      attrsAfter (Select rng2 fieldName p attrs' options n2) = Some attrs'.
Proof.
  assert (HS : forall r m c', Select r fieldName p (Some (<[ "class" := c' ]> g)) options m
                              = Select r fieldName p (Some g) options m).
  { intros r m c'. rewrite !Select_markup. cbv zeta. now rewrite insert_insert_eq. }
  split; [apply HS |]. split; [|split].
  - rewrite !Checkbox_markup. cbv zeta. now rewrite insert_insert_eq.
  - rewrite !Richtext_markup. cbv zeta.
    assert (E : <[ "id" := "richtext-" +:+ fieldName ]>
                  (<[ "class" := "richtext " +:+ fieldName ]>
                     (<[ "class" := c ]> (<[ "id" := i ]> g)))
                = <[ "id" := "richtext-" +:+ fieldName ]>
                    (<[ "class" := "richtext " +:+ fieldName ]> g)).
    { rewrite insert_insert_eq.
      rewrite (insert_insert_ne g "class" "id") by done.
      now rewrite insert_insert_eq. }
    rewrite E. unfold mapIndex. simpl entries.
    rewrite lookup_insert_ne by done. rewrite lookup_insert_ne by done.
    reflexivity.
  - intros out attrs' n' H. pose proof H as H0.
    rewrite Select_markup in H0. cbv zeta in H0.
    destruct (tagNameFromStructField fieldName p) as [t|] eqn:Et; [|discriminate].
    injection H0 as _ <- _. split; [now rewrite HS |].
    intros rng2 n2. rewrite HS, Select_markup, Et. reflexivity.
Qed.

Lemma caller_class_is_replaced_witness :
  Select listOrder "Title" post (Some (<[ "class" := "mine" ]> ∅)) None 0
  = Select listOrder "Title" post (Some ∅) None 0.
Proof.
  exact (proj1 (caller_class_is_replaced listOrder "Title" post ∅ None 0 "mine" "")).
Defined.

(** ** Further properties: the panic of a missing field *)

(** X7. For a non-empty name that is no field of the struct, [Input],
    [Textarea], [File] and [Tags], and [Richtext] and [Select] on a map
    that is not nil, abort with the message of [tagNameFromStructField]
    that names the field.  [Timestamp] and [Checkbox] read the value
    first and abort inside package reflect, in [Value.Int] and in
    [Value.Len] on the zero Value, before that message is reached. *)
Theorem missing_field_panics (rng : rangeOracle) (fieldName : string)
  (p : reflect.Struct) (attrs options : GoMap) (g : gmap string string) (n : nat) :
  fieldName <> "" ->
  reflect.FieldByName p fieldName = None ->
  Input rng fieldName p attrs n = Panic (NoStructField fieldName) /\
  Textarea rng fieldName p attrs n = Panic (NoStructField fieldName) /\
  File fieldName p attrs n = Panic (NoStructField fieldName) /\
  Tags fieldName p attrs n = Panic (NoStructField fieldName) /\
  Richtext rng fieldName p (Some g) n = Panic (NoStructField fieldName) /\
  Select rng fieldName p (Some g) options n = Panic (NoStructField fieldName) /\
  Timestamp rng fieldName p attrs n = Panic (ReflectKind "Int") /\
  Checkbox rng fieldName p (Some g) options n = Panic (ReflectKind "Len").
Proof.
  intros Hne Hf.
  assert (Ht : tagNameFromStructField fieldName p = Panic (NoStructField fieldName)).
  { unfold tagNameFromStructField. rewrite Hf.
    destruct (String.eqb_spec fieldName ""); [contradiction | reflexivity]. }
  assert (Hv : valueFromStructField fieldName p = reflect.mkValue reflect.Invalid false).
  { unfold valueFromStructField, reflect.ValueFieldByName. now rewrite Hf. }
  repeat split.
  - now rewrite Input_markup, Ht.
  - now rewrite Textarea_markup, Ht.
  - now rewrite File_markup, Ht.
  - now rewrite Tags_markup, Ht.
  - now rewrite Richtext_markup, Ht.
  - now rewrite Select_markup, Ht.
  - now rewrite Timestamp_markup, Hv.
  - now rewrite Checkbox_markup, Hv.
Qed.

Lemma missing_field_panics_witness :
  Input listOrder "Titel" post None 0 = Panic (NoStructField "Titel").
Proof.
  refine (proj1 (missing_field_panics listOrder "Titel" post None None ∅ 0 _ eq_refl)).
  discriminate.
Defined.

(** ** Further properties: no attributes *)

(** X8. On a nil or empty attribute map [Input] and [Textarea] return
    the bare element: no label, no attribute but the value and the name. *)
Theorem bare_element (rng : rangeOracle) (fieldName t : string) (p : reflect.Struct)
  (attrs : GoMap) (n : nat) :
  rangeOK rng ->
  entries attrs = ∅ ->
  tagNameFromStructField fieldName p = Ok t ->
  let v := EscapeString (reflect.ValueString (valueFromStructField fieldName p)) in
  outputOf (Input rng fieldName p attrs n)
    = Ok (inputField +:+ "<input value=" +:+ quoted v +:+ " " +:+ nameAttr t
            +:+ " /></div>") /\
  outputOf (Textarea rng fieldName p attrs n)
    = Ok (inputField +:+ "<textarea " +:+ nameAttr t +:+ " >" +:+ v
            +:+ "</textarea></div>").
Proof.
  intros Hok He Ht v.
  assert (Hr : rng n (entries attrs) = []) by now apply (range_nil_iff rng n _ Hok).
  assert (Hl : mapIndex attrs "label" = "").
  { unfold mapIndex. now rewrite He, lookup_empty. }
  split.
  - rewrite Input_markup, Ht, Hr, Hl. reflexivity.
  - rewrite Textarea_markup, Ht, Hr, Hl. reflexivity.
Qed.

Lemma bare_element_witness :
  outputOf (Textarea listOrder "Body" post None 0)
  = Ok (inputField +:+ "<textarea " +:+ nameAttr "body" +:+ " >" +:+ "plain"
          +:+ "</textarea></div>").
Proof.
  exact (proj2 (bare_element listOrder "Body" "body" post None 0 listOrder_ok
                  eq_refl eq_refl)).
Defined.

(** ** Further properties: what does not depend on the iteration order *)

Lemma slen_app (a b : string) :
  String.length (a +:+ b) = String.length a + String.length b.
Proof.
  induction a as [|c a IH]; [reflexivity |].
  rewrite sapp_cons. simpl. now rewrite IH.
Qed.

Lemma attrsMarkup_length_perm (kvs kvs' : list (string * string)) :
  kvs ≡ₚ kvs' ->
  String.length (attrsMarkup kvs) = String.length (attrsMarkup kvs').
Proof.
  induction 1 as [|kv l l' _ IH|a b l|l l' l'' _ IH1 _ IH2]; simpl.
  - reflexivity.
  - now rewrite !slen_app, IH.
  - rewrite !slen_app. lia.
  - now rewrite IH1.
Qed.

Lemma range_length (rng1 rng2 : rangeOracle) (n1 n2 : nat) (g : gmap string string) :
  rangeOK rng1 -> rangeOK rng2 ->
  String.length (attrsMarkup (rng1 n1 g)) = String.length (attrsMarkup (rng2 n2 g)).
Proof.
  intros H1 H2. apply attrsMarkup_length_perm. now rewrite (H1 n1 g), (H2 n2 g).
Qed.

Lemma elementMarkup_length_perm (kvs kvs' : list (string * string)) (e : element) :
  kvs ≡ₚ kvs' ->
  String.length (elementMarkup kvs e) = String.length (elementMarkup kvs' e).
Proof.
  intros H. unfold elementMarkup.
  now rewrite !slen_app, (attrsMarkup_length_perm _ _ H).
Qed.

Lemma checkboxMarkup_length_perm (kvs kvs' : list (string * string)) (e : element) :
  kvs ≡ₚ kvs' ->
  String.length (checkboxMarkup kvs e) = String.length (checkboxMarkup kvs' e).
Proof.
  intros H. unfold checkboxMarkup.
  now rewrite !slen_app, (attrsMarkup_length_perm _ _ H).
Qed.

Lemma childrenMarkup_length (rng : rangeOracle)
  (markup : list (string * string) -> element -> string)
  (children : list element) (n : nat) :
  rangeOK rng ->
  (forall kvs kvs' c, kvs ≡ₚ kvs' ->
     String.length (markup kvs c) = String.length (markup kvs' c)) ->
  String.length (childrenMarkup rng markup n children) =
  sum_list_with (fun c => String.length (markup (map_to_list (entries (Attrs c))) c))
    children.
Proof.
  intros Hok Hm. revert n.
  induction children as [|c rest IH]; intros n; [reflexivity |].
  simpl. rewrite slen_app, IH. f_equal. apply Hm, Hok.
Qed.

Lemma checkboxInput_length (t : string) (checked : list string) (i : Z)
  (kv : string * string) (kvs : list (string * string)) :
  String.length (checkboxMarkup kvs (checkboxInput t checked i kv))
    + String.length (decimal 0)
  = String.length (checkboxMarkup kvs (checkboxInput t checked 0 kv))
    + String.length (decimal i).
Proof.
  unfold checkboxMarkup, checkboxInput, quoted. cbn [viewBuf TagName Name label].
  rewrite !slen_app. lia.
Qed.

Lemma checkboxInputs_length (t : string) (checked : list string)
  (kvs : list (string * string)) (i : Z) :
  sum_list_with
    (fun c => String.length (checkboxMarkup (map_to_list (entries (Attrs c))) c))
    (checkboxInputs t checked kvs i)
    + length kvs * String.length (decimal 0)
  = sum_list_with
      (fun kv => String.length
                   (checkboxMarkup
                      (map_to_list (entries (Attrs (checkboxInput t checked 0 kv))))
                      (checkboxInput t checked 0 kv))) kvs
    + indexLength i (length kvs).
Proof.
  revert i. induction kvs as [|kv kvs IH]; intros i; [reflexivity |].
  cbn [checkboxInputs sum_list_with length indexLength].
  rewrite Nat.mul_succ_l. specialize (IH (i + 1)%Z).
  pose proof (checkboxInput_length t checked i kv
                (map_to_list (entries (Attrs (checkboxInput t checked i kv))))) as H.
  cbn [Attrs checkboxInput] in H, IH |- *. lia.
Qed.

Lemma checkboxInputs_length_perm (t : string) (checked : list string)
  (kvs kvs' : list (string * string)) :
  kvs ≡ₚ kvs' ->
  sum_list_with
    (fun c => String.length (checkboxMarkup (map_to_list (entries (Attrs c))) c))
    (checkboxInputs t checked kvs 0)
  = sum_list_with
      (fun c => String.length (checkboxMarkup (map_to_list (entries (Attrs c))) c))
      (checkboxInputs t checked kvs' 0).
Proof.
  intros H.
  pose proof (checkboxInputs_length t checked kvs 0) as H1.
  pose proof (checkboxInputs_length t checked kvs' 0) as H2.
  assert (E1 : length kvs = length kvs') by now rewrite H.
  assert (E2 :
    sum_list_with
      (fun kv => String.length
                   (checkboxMarkup
                      (map_to_list (entries (Attrs (checkboxInput t checked 0 kv))))
                      (checkboxInput t checked 0 kv))) kvs
    = sum_list_with
        (fun kv => String.length
                     (checkboxMarkup
                        (map_to_list (entries (Attrs (checkboxInput t checked 0 kv))))
                        (checkboxInput t checked 0 kv))) kvs') by now rewrite H.
  rewrite E1, E2 in H1. lia.
Qed.

(** X9. Whether a rendering call returns, the panic it ends in
    otherwise, and the number of bytes it returns do not depend on the
    order in which the attribute and option maps are visited. *)
Theorem length_does_not_depend_on_map_order (w : widget) (rng1 rng2 : rangeOracle)
  (fieldName : string) (p : reflect.Struct) (attrs options : GoMap) (n1 n2 : nat) :
  rangeOK rng1 -> rangeOK rng2 ->
  lengthOf (render w rng1 fieldName p attrs options n1)
  = lengthOf (render w rng2 fieldName p attrs options n2).
Proof.
  intros H1 H2.
  pose proof (fun g => range_length rng1 rng2 n1 n2 g H1 H2) as Hr.
  destruct w; simpl render.
  - rewrite !Input_markup. destruct (tagNameFromStructField fieldName p); [|reflexivity].
    unfold lengthOf, inputBytes. now rewrite !slen_app, Hr.
  - rewrite !Textarea_markup.
    destruct (tagNameFromStructField fieldName p); [|reflexivity].
    unfold lengthOf, textareaBytes. now rewrite !slen_app, Hr.
  - rewrite !Timestamp_markup. destruct (reflect.ValueInt _); [|reflexivity].
    destruct (tagNameFromStructField fieldName p); [|reflexivity].
    unfold lengthOf, inputBytes. now rewrite !slen_app, Hr.
  - rewrite !File_markup. now destruct (tagNameFromStructField fieldName p).
  - rewrite !Richtext_markup. destruct attrs as [g|]; [|reflexivity]. cbv zeta.
    destruct (tagNameFromStructField fieldName p); [|reflexivity].
    unfold lengthOf, richtextBytes. now rewrite !slen_app, Hr.
  - rewrite !Select_markup. destruct attrs as [g|]; [|reflexivity]. cbv zeta.
    destruct (tagNameFromStructField fieldName p); [|reflexivity].
    unfold lengthOf. f_equal. rewrite !slen_app.
    rewrite !(childrenMarkup_length _ elementMarkup) by
      (assumption || apply elementMarkup_length_perm).
    rewrite (range_length rng1 rng2 (S n1) (S n2) _ H1 H2).
    cbn [sum_list_with]. rewrite (H1 n1 (entries options)), (H2 n2 (entries options)).
    reflexivity.
  - rewrite !Checkbox_markup. destruct attrs as [g|]; [|reflexivity]. cbv zeta.
    destruct (reflect.asStrings _) as [checked|]; [|reflexivity].
    pose proof (H1 n1 (entries options)) as P1.
    pose proof (H2 n2 (entries options)) as P2.
    assert (P : rng1 n1 (entries options) ≡ₚ rng2 n2 (entries options))
      by now rewrite P1, P2.
    destruct (tagNameFromStructField fieldName p) as [t|why] eqn:E.
    + rewrite !(checkboxOptions_ok _ _ _ _ _ _ _ E). simpl app.
      unfold lengthOf. f_equal. rewrite !slen_app.
      rewrite !(childrenMarkup_length _ checkboxMarkup) by
        (assumption || apply checkboxMarkup_length_perm).
      rewrite (range_length rng1 rng2 (S n1) (S n2) _ H1 H2).
      now rewrite (checkboxInputs_length_perm t checked _ _ P).
    + rewrite !(checkboxOptions_panic _ _ _ _ _ _ _ E).
      destruct (rng1 n1 (entries options)) as [|kv1 l1];
        destruct (rng2 n2 (entries options)) as [|kv2 l2].
      * unfold lengthOf. f_equal. rewrite !slen_app.
        now rewrite (range_length rng1 rng2 (S n1) (S n2) _ H1 H2).
      * now apply Permutation_nil_cons in P.
      * symmetry in P. now apply Permutation_nil_cons in P.
      * reflexivity.
  - rewrite !Tags_markup. destruct (tagNameFromStructField fieldName p); [|reflexivity].
    now destruct (reflect.asStrings _).
Qed.

Lemma length_does_not_depend_on_map_order_witness :
  lengthOf (render WSelect listOrder "Title" post twoAttrs None 0)
  = lengthOf (render WSelect reverseOrder "Title" post twoAttrs None 5).
Proof.
  exact (length_does_not_depend_on_map_order WSelect listOrder reverseOrder "Title" post
           twoAttrs None 0 5 listOrder_ok reverseOrder_ok).
Defined.

(** ** Further properties: the value can be read back *)

Lemma sapp_nil_l (a : string) : "" +:+ a = a.
Proof. reflexivity. Qed.

Lemma sapp_inj_r (a b r : string) : a +:+ r = b +:+ r -> a = b.
Proof.
  intros H.
  assert (Hl : String.length a = String.length b).
  { apply (f_equal String.length) in H. rewrite !slen_app in H. lia. }
  revert b H Hl. induction a as [|x a IH]; intros [|y b] H Hl;
    try discriminate Hl; [reflexivity |].
  rewrite !sapp_cons in H. injection H as -> H. f_equal.
  apply IH; [exact H | simpl in Hl; lia].
Qed.

Lemma escapeChar_cases (c : ascii) :
  (c = "&"%char /\ escapeChar c = "&amp;") \/
  (c = "'"%char /\ escapeChar c = "&#39;") \/
  (c = "<"%char /\ escapeChar c = "&lt;") \/
  (c = ">"%char /\ escapeChar c = "&gt;") \/
  (c = dquote /\ escapeChar c = "&#34;") \/
  (c <> "&"%char /\ escapeChar c = String c "").
Proof.
  unfold escapeChar.
  destruct (Ascii.eqb_spec c "&"); [now left |].
  destruct (Ascii.eqb_spec c "'"); [now right; left |].
  destruct (Ascii.eqb_spec c "<"); [now right; right; left |].
  destruct (Ascii.eqb_spec c ">"); [now right; right; right; left |].
  destruct (Ascii.eqb_spec c dquote); [now right; right; right; right; left |].
  now right; right; right; right; right.
Qed.

Lemma EscapeString_inj (s1 s2 : string) : EscapeString s1 = EscapeString s2 -> s1 = s2.
Proof.
  revert s2. induction s1 as [|c1 s1 IH]; intros [|c2 s2] H.
  - reflexivity.
  - exfalso. simpl in H.
    destruct (escapeChar_cases c2) as [[_ E]|[[_ E]|[[_ E]|[[_ E]|[[_ E]|[_ E]]]]]];
      rewrite E, sapp_cons in H; discriminate H.
  - exfalso. simpl in H.
    destruct (escapeChar_cases c1) as [[_ E]|[[_ E]|[[_ E]|[[_ E]|[[_ E]|[_ E]]]]]];
      rewrite E, sapp_cons in H; discriminate H.
  - simpl in H.
    destruct (escapeChar_cases c1)
      as [[-> E1]|[[-> E1]|[[-> E1]|[[-> E1]|[[-> E1]|[N1 E1]]]]]];
      destruct (escapeChar_cases c2)
        as [[-> E2]|[[-> E2]|[[-> E2]|[[-> E2]|[[-> E2]|[N2 E2]]]]]];
      rewrite ?E1, ?E2, ?sapp_cons, ?sapp_nil_l in H;
      try discriminate H;
      try (injection H as H; f_equal; now apply IH);
      try (injection H as -> H; f_equal; now apply IH);
      try (injection H as Hc _; congruence).
Qed.

Lemma decimal_nonempty (z : Z) : decimal z <> "".
Proof.
  intros H. pose proof H as H0.
  unfold decimal in H. apply (f_equal NilEmpty.int_of_string) in H.
  rewrite NilEmpty.isi in H. simpl in H. injection H as H.
  apply (f_equal Z.of_int) in H. rewrite DecimalZ.of_to in H. simpl in H. subst z.
  discriminate H0.
Qed.

Ltac strip_prefix H :=
  rewrite ?sapp_assoc in H; repeat apply String.app_inj in H; apply sapp_inj_r in H.

(** X10. The value a widget shows determines the value of the field:
    when two structs of one type give [Input], [Textarea], [File] or
    [Richtext] the same bytes under the same attributes and iteration
    order, the string forms of the two field values are equal.  Escaping
    loses nothing. *)
Theorem shown_value_determines_field_value (rng : rangeOracle) (fieldName t : string)
  (p1 p2 : reflect.Struct) (attrs : GoMap) (g : gmap string string) (n : nat) :
  tagNameFromStructField fieldName p1 = Ok t ->
  tagNameFromStructField fieldName p2 = Ok t ->
  let v1 := reflect.ValueString (valueFromStructField fieldName p1) in
  let v2 := reflect.ValueString (valueFromStructField fieldName p2) in
  (outputOf (Input rng fieldName p1 attrs n) = outputOf (Input rng fieldName p2 attrs n)
   -> v1 = v2) /\
  (outputOf (Textarea rng fieldName p1 attrs n)
   = outputOf (Textarea rng fieldName p2 attrs n) -> v1 = v2) /\
  (outputOf (File fieldName p1 attrs n) = outputOf (File fieldName p2 attrs n)
   -> v1 = v2) /\
  (outputOf (Richtext rng fieldName p1 (Some g) n)
   = outputOf (Richtext rng fieldName p2 (Some g) n) -> v1 = v2).
Proof.
  intros T1 T2 v1 v2. repeat split; intros H.
  - rewrite !Input_markup, T1, T2 in H. injection H as H.
    unfold inputBytes, quoted in H. strip_prefix H. now apply EscapeString_inj.
  - rewrite !Textarea_markup, T1, T2 in H. injection H as H.
    unfold textareaBytes in H. strip_prefix H. now apply EscapeString_inj.
  - rewrite !File_markup, T1, T2 in H. injection H as H.
    unfold fileBytes, quoted in H. strip_prefix H. exact H.
  - rewrite !Richtext_markup, T1, T2 in H. cbv zeta in H. injection H as H.
    unfold richtextBytes, quoted in H. strip_prefix H. now apply EscapeString_inj.
Qed.

Lemma shown_value_determines_field_value_witness :
  reflect.ValueString (valueFromStructField "Title" post) = "Tom & Jerry <3".
Proof.
  exact (proj1 (proj2 (proj2
    (shown_value_determines_field_value listOrder "Title" "title" post post None ∅ 0
       eq_refl eq_refl))) eq_refl).
Defined.

(** X11. The value attribute [Timestamp] writes determines the integer
    the field holds: when two structs of one type, each holding a signed
    integer in the field, give [Timestamp] the same bytes under the same
    attributes and iteration order, the two integers are equal. *)
Theorem timestamp_determines_field_value (rng : rangeOracle) (fieldName t : string)
  (p1 p2 : reflect.Struct) (attrs : GoMap) (n : nat)
  (f1 f2 : reflect.StructField) (ty1 ty2 : string) (z1 z2 : Z) :
  reflect.FieldByName p1 fieldName = Some f1 ->
  reflect.Val f1 = reflect.OfInt ty1 z1 ->
  reflect.Lookup (reflect.Tag f1) "json" = Some t ->
  reflect.FieldByName p2 fieldName = Some f2 ->
  reflect.Val f2 = reflect.OfInt ty2 z2 ->
  reflect.Lookup (reflect.Tag f2) "json" = Some t ->
  outputOf (Timestamp rng fieldName p1 attrs n)
    = outputOf (Timestamp rng fieldName p2 attrs n) ->
  z1 = z2.
Proof.
  intros F1 V1 L1 F2 V2 L2 H.
  rewrite !Timestamp_markup in H.
  rewrite (tagName_of_field _ _ _ _ F1 L1), (tagName_of_field _ _ _ _ F2 L2) in H.
  unfold valueFromStructField, reflect.ValueFieldByName, reflect.ValueInt in H.
  rewrite F1, F2 in H. simpl in H. rewrite V1, V2 in H. injection H as H.
  unfold inputBytes, quoted in H. strip_prefix H. apply EscapeString_inj in H.
  destruct (Z.eqb_spec z1 0) as [->|N1]; destruct (Z.eqb_spec z2 0) as [->|N2].
  - reflexivity.
  - symmetry in H. now apply decimal_nonempty in H.
  - now apply decimal_nonempty in H.
  - now apply decimal_inj.
Qed.

Lemma timestamp_determines_field_value_witness : 1479%Z = 1479%Z.
Proof.
  exact (timestamp_determines_field_value listOrder "Timestamp" "timestamp" post post
           None 0 _ _ "int64" "int64" 1479 1479
           eq_refl eq_refl eq_refl eq_refl eq_refl eq_refl eq_refl).
Defined.

(** ** Further properties: names belong to the type *)

(** X12. The name of a widget depends on the type of the struct only:
    two structs whose fields have the same names and tags, whatever
    values they hold, give [tagNameFromStructField] and
    [tagNameFromStructFieldMulti] the same result for every field name. *)
Theorem tag_name_depends_on_type_only (p1 p2 : reflect.Struct) (name : string) (i : Z) :
  map (fun f => (reflect.Name f, reflect.Tag f)) p1
    = map (fun f => (reflect.Name f, reflect.Tag f)) p2 ->
  tagNameFromStructField name p1 = tagNameFromStructField name p2 /\
  tagNameFromStructFieldMulti name i p1 = tagNameFromStructFieldMulti name i p2.
Proof.
  intros H.
  assert (E : tagNameFromStructField name p1 = tagNameFromStructField name p2).
  { unfold tagNameFromStructField, reflect.FieldByName.
    destruct (String.eqb name ""); [reflexivity |].
    revert p2 H. induction p1 as [|f1 p1 IH]; intros [|f2 p2] H;
      try discriminate H; [reflexivity |].
    simpl in H. injection H as Hn Ht H. simpl. rewrite Hn.
    destruct (String.eqb (reflect.Name f2) name); [now rewrite Ht | now apply IH]. }
  split; [exact E |]. unfold tagNameFromStructFieldMulti. now rewrite E.
Qed.

Lemma tag_name_depends_on_type_only_witness :
  tagNameFromStructField "Title" post
  = tagNameFromStructField "Title"
      (reflect.mkField "Title" "" [("json", "title")] (reflect.OfString "Another")
         :: tail post).
Proof.
  exact (proj1 (tag_name_depends_on_type_only post
                  (reflect.mkField "Title" "" [("json", "title")]
                     (reflect.OfString "Another") :: tail post)
                  "Title" 0 eq_refl)).
Defined.
